(** * SAM I2C slave interrupt driver: session state machine

    A shallow embedding of [asf/src/i2c_slave_interrupt.c]: the control API
    ([i2c_slave_read_packet_job], [i2c_slave_write_packet_job], the NACK
    policy and the callback registration) and the interrupt handler
    [_i2c_slave_interrupt_handler], followed by the properties of the
    transaction state machine.

    Conventions.
    - Unsigned C integers are [Z]; [uint8] and [uint16] write out the
      wrap-around where the C code computes (the [--] on
      [buffer_remaining], the [&=] on the callback mask).
    - [module->buffer] is an address into [ram], a map from addresses to
      bytes; [buffer++] is the next address.
    - The SERCOM registers the code reads ([INTFLAG], [STATUS], [DATA]) are
      fields of the machine; every register write, and the read of [DATA]
      (which consumes the received byte), is appended to the access log
      [accesses], in program order.
    - A user callback receives the module pointer and may do anything with
      the session: it is a function from machines to machines.  The handler
      returns, next to the final machine, the list of callbacks it invoked,
      in order.

    The callback functions and the handler of the TCC driver and the loop
    of the bootloader's [main], the two other source files, are embedded
    after the I2C driver, with the same conventions. *)

From Stdlib Require Import ZArith List Bool Lia.
Import ListNotations.
Local Open Scope Z_scope.

(** ** Integer types *)

Definition uint8 (x : Z) : Z := x mod 256.
Definition uint16 (x : Z) : Z := x mod 65536.

(** C truth value of [x & m]. *)
Definition flag_set (x m : Z) : bool := negb (Z.land x m =? 0).

(** ** Enumerations *)

(** The values of [enum status_code] this driver stores and returns. *)
Inductive status_code : Type :=
| STATUS_OK
| STATUS_BUSY
| STATUS_ERR_IO
| STATUS_ERR_OVERFLOW.

Inductive i2c_transfer_direction : Type :=
| I2C_TRANSFER_WRITE
| I2C_TRANSFER_READ.

Inductive i2c_slave_callback : Type :=
| I2C_SLAVE_CALLBACK_WRITE_COMPLETE
| I2C_SLAVE_CALLBACK_READ_COMPLETE
| I2C_SLAVE_CALLBACK_READ_REQUEST
| I2C_SLAVE_CALLBACK_WRITE_REQUEST
| I2C_SLAVE_CALLBACK_ERROR
| I2C_SLAVE_CALLBACK_ERROR_LAST_TRANSFER.

Definition status_code_eqb (a b : status_code) : bool :=
  match a, b with
  | STATUS_OK, STATUS_OK
  | STATUS_BUSY, STATUS_BUSY
  | STATUS_ERR_IO, STATUS_ERR_IO
  | STATUS_ERR_OVERFLOW, STATUS_ERR_OVERFLOW => true
  | _, _ => false
  end.

Definition direction_eqb (a b : i2c_transfer_direction) : bool :=
  match a, b with
  | I2C_TRANSFER_WRITE, I2C_TRANSFER_WRITE
  | I2C_TRANSFER_READ, I2C_TRANSFER_READ => true
  | _, _ => false
  end.

Definition callback_eq_dec (a b : i2c_slave_callback) : {a = b} + {a <> b}.
Proof. decide equality. Defined.

(** ** Constants of the headers

    The bit masks of the SERCOM I2CS registers (device header) and the
    numbering of [enum i2c_slave_callback] (driver header) are not part of
    the sources at hand.  The driver is embedded over any choice of them. *)
Record header_constants : Type := {
  SERCOM_I2CS_INTFLAG_PREC : Z;
  SERCOM_I2CS_INTFLAG_AMATCH : Z;
  SERCOM_I2CS_INTFLAG_DRDY : Z;
  SERCOM_I2CS_STATUS_BUSERR : Z;
  SERCOM_I2CS_STATUS_COLL : Z;
  SERCOM_I2CS_STATUS_RXNACK : Z;
  SERCOM_I2CS_STATUS_DIR : Z;
  SERCOM_I2CS_STATUS_LOWTOUT : Z;
  SERCOM_I2CS_CTRLB_CMD : Z -> Z;
  callback_index : i2c_slave_callback -> Z
}.

(** ** Data model *)

(** [struct i2c_slave_packet]. *)
Record i2c_slave_packet : Type := {
  data_length : Z;
  data : Z
}.

(** The session fields of [struct i2c_slave_module]; the callback table
    [callbacks] is passed to the handler separately. *)
Record i2c_slave_module : Type := {
  registered_callback : Z;
  enabled_callback : Z;
  buffer_length : Z;
  buffer_remaining : Z;
  buffer : Z;
  transfer_direction : i2c_transfer_direction;
  nack_on_address : bool;
  status : status_code
}.

(** The registers of [SercomI2cs] the driver reads. *)
Record SercomI2cs : Type := {
  INTFLAG : Z;
  STATUS : Z;
  DATA : Z
}.

(** Accesses to the hardware, as the driver performs them: the register
    writes, the read of DATA, and the two CTRLB operations of the driver
    header (acknowledge action, command 3). *)
Inductive hw_access : Type :=
| INTENSET_write (mask : Z)
| INTENCLR_write (mask : Z)
| INTFLAG_write (mask : Z)
| CTRLB_or (bits : Z)
| DATA_read (byte : Z)
| DATA_write (byte : Z)
| CTRLB_ackact (send_ack : bool)
| CTRLB_cmd3.

Record machine : Type := {
  module : i2c_slave_module;
  i2c_hw : SercomI2cs;
  ram : Z -> Z;
  accesses : list hw_access
}.

(** *** Field updates *)

Definition set_registered_callback (v : Z) (m : i2c_slave_module) :=
  {| registered_callback := v;
     enabled_callback := enabled_callback m;
     buffer_length := buffer_length m;
     buffer_remaining := buffer_remaining m;
     buffer := buffer m;
     transfer_direction := transfer_direction m;
     nack_on_address := nack_on_address m;
     status := status m |}.

Definition set_buffer_length (v : Z) (m : i2c_slave_module) :=
  {| registered_callback := registered_callback m;
     enabled_callback := enabled_callback m;
     buffer_length := v;
     buffer_remaining := buffer_remaining m;
     buffer := buffer m;
     transfer_direction := transfer_direction m;
     nack_on_address := nack_on_address m;
     status := status m |}.

Definition set_buffer_remaining (v : Z) (m : i2c_slave_module) :=
  {| registered_callback := registered_callback m;
     enabled_callback := enabled_callback m;
     buffer_length := buffer_length m;
     buffer_remaining := v;
     buffer := buffer m;
     transfer_direction := transfer_direction m;
     nack_on_address := nack_on_address m;
     status := status m |}.

Definition set_buffer (v : Z) (m : i2c_slave_module) :=
  {| registered_callback := registered_callback m;
     enabled_callback := enabled_callback m;
     buffer_length := buffer_length m;
     buffer_remaining := buffer_remaining m;
     buffer := v;
     transfer_direction := transfer_direction m;
     nack_on_address := nack_on_address m;
     status := status m |}.

Definition set_transfer_direction (v : i2c_transfer_direction)
  (m : i2c_slave_module) :=
  {| registered_callback := registered_callback m;
     enabled_callback := enabled_callback m;
     buffer_length := buffer_length m;
     buffer_remaining := buffer_remaining m;
     buffer := buffer m;
     transfer_direction := v;
     nack_on_address := nack_on_address m;
     status := status m |}.

Definition set_nack_on_address (v : bool) (m : i2c_slave_module) :=
  {| registered_callback := registered_callback m;
     enabled_callback := enabled_callback m;
     buffer_length := buffer_length m;
     buffer_remaining := buffer_remaining m;
     buffer := buffer m;
     transfer_direction := transfer_direction m;
     nack_on_address := v;
     status := status m |}.

Definition set_status (v : status_code) (m : i2c_slave_module) :=
  {| registered_callback := registered_callback m;
     enabled_callback := enabled_callback m;
     buffer_length := buffer_length m;
     buffer_remaining := buffer_remaining m;
     buffer := buffer m;
     transfer_direction := transfer_direction m;
     nack_on_address := nack_on_address m;
     status := v |}.

(** [module->field = v] on a machine. *)
Definition on_module (f : i2c_slave_module -> i2c_slave_module)
  (s : machine) : machine :=
  {| module := f (module s); i2c_hw := i2c_hw s; ram := ram s;
     accesses := accesses s |}.

(** One more hardware access. *)
Definition access (a : hw_access) (s : machine) : machine :=
  {| module := module s; i2c_hw := i2c_hw s; ram := ram s;
     accesses := accesses s ++ [a] |}.

(** [*p = v]. *)
Definition store (p v : Z) (s : machine) : machine :=
  {| module := module s; i2c_hw := i2c_hw s;
     ram := fun a => if a =? p then v else ram s a;
     accesses := accesses s |}.

(** Modelled from the spec: [_i2c_slave_set_ctrlb_ackact], an inline helper
    of the driver header, is not among the sources.  The spec has it
    "instruct hardware to NACK the address" or to ACK it: an operation on
    the CTRLB register that leaves the session alone. *)
Definition _i2c_slave_set_ctrlb_ackact (send_ack : bool) (s : machine)
  : machine :=
  access (CTRLB_ackact send_ack) s.

(** Modelled from the spec: [_i2c_slave_set_ctrlb_cmd3], an inline helper of
    the driver header, is not among the sources.  The spec has it "commit
    the ACK/NACK decision to hardware": an operation on the CTRLB register
    that leaves the session alone. *)
Definition _i2c_slave_set_ctrlb_cmd3 (s : machine) : machine :=
  access CTRLB_cmd3 s.

(** The register contents the hardware presents at an interrupt. *)
Definition with_hw (regs : SercomI2cs) (s : machine) : machine :=
  {| module := module s; i2c_hw := regs; ram := ram s;
     accesses := accesses s |}.

(** ** Callbacks and handler steps *)

Definition i2c_slave_callback_t : Type := machine -> machine.
Definition callback_table : Type := i2c_slave_callback -> i2c_slave_callback_t.

(** A piece of the handler: the machine it leaves and the callbacks it
    invoked. *)
Definition step : Type := machine -> machine * list i2c_slave_callback.

Definition skip : step := fun s => (s, []).

Definition exec (f : machine -> machine) : step := fun s => (f s, []).

Definition seq (f g : step) : step :=
  fun s =>
    let (s1, l1) := f s in
    let (s2, l2) := g s1 in
    (s2, l1 ++ l2).

Declare Scope step_scope.
Delimit Scope step_scope with step.
Bind Scope step_scope with step.
Notation "f ;; g" := (seq f g) (at level 61, right associativity) : step_scope.

(** [module->callbacks[k](module)]. *)
Definition invoke (callbacks : callback_table) (k : i2c_slave_callback) : step :=
  fun s => (callbacks k s, [k]).

Section Driver.

Variable hdr : header_constants.

(** [1 << callback_type]. *)
Definition callback_bit (k : i2c_slave_callback) : Z :=
  Z.shiftl 1 (callback_index hdr k).

(** [if (callback_mask & (1 << k)) module->callbacks[k](module);] *)
Definition invoke_if (callbacks : callback_table) (callback_mask : Z)
  (k : i2c_slave_callback) : step :=
  fun s =>
    if flag_set callback_mask (callback_bit k) then invoke callbacks k s
    else skip s.

(** ** Control API *)

(** Lines 49-73: the NACK policy. *)
Definition i2c_slave_enable_nack_on_address (s : machine) : machine :=
  on_module (set_nack_on_address true) s.

Definition i2c_slave_disable_nack_on_address (s : machine) : machine :=
  on_module (set_nack_on_address false) s.

(** Lines 123-162: registration.  The slot of the table is set by the
    caller of the handler; the session keeps the mask. *)
Definition i2c_slave_register_callback (callback_type : i2c_slave_callback)
  (s : machine) : machine :=
  on_module (fun m =>
    set_registered_callback
      (uint8 (Z.lor (registered_callback m) (callback_bit callback_type))) m) s.

Definition i2c_slave_unregister_callback (callback_type : i2c_slave_callback)
  (s : machine) : machine :=
  on_module (fun m =>
    set_registered_callback
      (uint8 (Z.land (registered_callback m)
                     (Z.lnot (callback_bit callback_type)))) m) s.

(** Lines 194-203 and 239-248, the same in the two job functions: save
    the packet and enable the three interrupt sources. *)
Definition save_packet (packet : i2c_slave_packet) (s : machine) : machine :=
  access
    (INTENSET_write
       (Z.lor (Z.lor (SERCOM_I2CS_INTFLAG_AMATCH hdr)
                     (SERCOM_I2CS_INTFLAG_DRDY hdr))
              (SERCOM_I2CS_INTFLAG_PREC hdr)))
    (on_module (fun m =>
       set_status STATUS_BUSY
         (set_buffer_length (data_length packet)
            (set_buffer_remaining (data_length packet)
               (set_buffer (data packet) m)))) s).

(** [i2c_slave_read_packet_job], lines 180-207. *)
Definition i2c_slave_read_packet_job (packet : i2c_slave_packet)
  (s : machine) : status_code * machine :=
  if 0 <? buffer_remaining (module s) then (STATUS_BUSY, s)
  else (STATUS_OK, save_packet packet s).

(** [i2c_slave_write_packet_job], lines 225-251. *)
Definition i2c_slave_write_packet_job (packet : i2c_slave_packet)
  (s : machine) : status_code * machine :=
  if 0 <? buffer_remaining (module s) then (STATUS_BUSY, s)
  else (STATUS_OK, save_packet packet s).

(** ** Interrupt handler *)

(** [_i2c_slave_read], lines 81-91: the byte of the DATA register goes to
    [*buffer], the cursor advances, [buffer_remaining] is decremented. *)
Definition _i2c_slave_read (s : machine) : machine :=
  let byte := DATA (i2c_hw s) in
  let p := buffer (module s) in
  let s := access (DATA_read byte) s in
  let s := on_module (set_buffer (p + 1)) s in
  let s := store p byte s in
  on_module (fun m => set_buffer_remaining (uint16 (buffer_remaining m - 1)) m) s.

(** [_i2c_slave_write], lines 99-109: the byte at [*buffer] goes to the
    DATA register, the cursor advances, [buffer_remaining] is decremented. *)
Definition _i2c_slave_write (s : machine) : machine :=
  let p := buffer (module s) in
  let byte := ram s p in
  let s := on_module (set_buffer (p + 1)) s in
  let s := access (DATA_write byte) s in
  on_module (fun m => set_buffer_remaining (uint16 (buffer_remaining m - 1)) m) s.

(** [status = STATUS_OK; buffer_length = 0; buffer_remaining = 0;] *)
Definition transfer_done (m : i2c_slave_module) : i2c_slave_module :=
  set_buffer_remaining 0 (set_buffer_length 0 (set_status STATUS_OK m)).

(** Lines 277-296: a previous transfer that was not marked complete
    (repeated start). *)
Definition repeated_start_completion (callbacks : callback_table)
  (callback_mask : Z) : step :=
  fun s =>
    let m := module s in
    if negb (buffer_length m =? buffer_remaining m)
       && direction_eqb (transfer_direction m) I2C_TRANSFER_WRITE
    then
      (exec (on_module transfer_done) ;;
       invoke_if callbacks callback_mask I2C_SLAVE_CALLBACK_READ_COMPLETE)%step s
    else if negb (buffer_length m =? buffer_remaining m)
            && direction_eqb (transfer_direction m) I2C_TRANSFER_READ
    then
      (exec (on_module transfer_done) ;;
       invoke_if callbacks callback_mask I2C_SLAVE_CALLBACK_WRITE_COMPLETE)%step s
    else skip s.

(** Lines 298-306: an error occurred in the last packet transfer. *)
Definition last_transfer_error (callbacks : callback_table)
  (callback_mask : Z) : step :=
  fun s =>
    if flag_set (STATUS (i2c_hw s))
         (Z.lor (Z.lor (SERCOM_I2CS_STATUS_BUSERR hdr)
                       (SERCOM_I2CS_STATUS_COLL hdr))
                (SERCOM_I2CS_STATUS_LOWTOUT hdr))
    then
      (exec (on_module (set_status STATUS_ERR_IO)) ;;
       invoke_if callbacks callback_mask
         I2C_SLAVE_CALLBACK_ERROR_LAST_TRANSFER)%step s
    else skip s.

(** Lines 319-325 and 335-341: ACK the address iff a buffer is set up. *)
Definition ack_if_buffer : step :=
  fun s =>
    if buffer_length (module s) =? 0
    then exec (_i2c_slave_set_ctrlb_ackact false) s
    else exec (_i2c_slave_set_ctrlb_ackact true) s.

(** Lines 307-342: NACK policy, then the direction of the new address
    phase and its request callback. *)
Definition address_response (callbacks : callback_table)
  (callback_mask : Z) : step :=
  fun s =>
    if nack_on_address (module s) then
      exec (_i2c_slave_set_ctrlb_ackact false) s
    else if flag_set (STATUS (i2c_hw s)) (SERCOM_I2CS_STATUS_DIR hdr) then
      (exec (on_module (set_transfer_direction I2C_TRANSFER_READ)) ;;
       invoke_if callbacks callback_mask I2C_SLAVE_CALLBACK_READ_REQUEST ;;
       ack_if_buffer)%step s
    else
      (exec (on_module (set_transfer_direction I2C_TRANSFER_WRITE)) ;;
       invoke_if callbacks callback_mask I2C_SLAVE_CALLBACK_WRITE_REQUEST ;;
       ack_if_buffer)%step s.

(** Lines 298-348: the new address phase, after the repeated start check. *)
Definition address_phase (callbacks : callback_table) (callback_mask : Z)
  : step :=
  (last_transfer_error callbacks callback_mask ;;
   address_response callbacks callback_mask ;;
   exec _i2c_slave_set_ctrlb_cmd3 ;;
   exec (_i2c_slave_set_ctrlb_ackact true))%step.

(** Lines 274-348: the address match branch. *)
Definition address_match (callbacks : callback_table) (callback_mask : Z)
  : step :=
  (repeated_start_completion callbacks callback_mask ;;
   address_phase callbacks callback_mask)%step.

(** Lines 370-379: the completion callback of a stop condition. *)
Definition stop_callback (callbacks : callback_table) (callback_mask : Z)
  : step :=
  fun s =>
    if flag_set callback_mask (callback_bit I2C_SLAVE_CALLBACK_READ_COMPLETE)
       && direction_eqb (transfer_direction (module s)) I2C_TRANSFER_WRITE
    then invoke callbacks I2C_SLAVE_CALLBACK_READ_COMPLETE s
    else if flag_set callback_mask
              (callback_bit I2C_SLAVE_CALLBACK_WRITE_COMPLETE)
            && direction_eqb (transfer_direction (module s)) I2C_TRANSFER_READ
    then invoke callbacks I2C_SLAVE_CALLBACK_WRITE_COMPLETE s
    else skip s.

(** Lines 353-363: clear the stop flag, disable the stop and data ready
    interrupt sources, and the address match source when no request
    callback is enabled. *)
Definition stop_disable_interrupts : step :=
  (exec (access (INTFLAG_write (SERCOM_I2CS_INTFLAG_PREC hdr))) ;;
   exec (access (INTENCLR_write
                   (Z.lor (SERCOM_I2CS_INTFLAG_PREC hdr)
                          (SERCOM_I2CS_INTFLAG_DRDY hdr)))) ;;
   (fun s =>
      if negb (flag_set (enabled_callback (module s))
                 (callback_bit I2C_SLAVE_CALLBACK_READ_REQUEST)
               || flag_set (enabled_callback (module s))
                    (callback_bit I2C_SLAVE_CALLBACK_WRITE_REQUEST))
      then exec (access (INTENCLR_write (SERCOM_I2CS_INTFLAG_AMATCH hdr))) s
      else skip s))%step.

(** Lines 365-380: outside an error status, mark the transfer done and
    call the completion callback. *)
Definition stop_completion (callbacks : callback_table) (callback_mask : Z)
  : step :=
  fun s =>
    if negb (status_code_eqb (status (module s)) STATUS_ERR_OVERFLOW
             || status_code_eqb (status (module s)) STATUS_ERR_IO)
    then
      (exec (on_module transfer_done) ;;
       stop_callback callbacks callback_mask)%step s
    else skip s.

(** Lines 350-380: the stop condition branch. *)
Definition stop_condition (callbacks : callback_table) (callback_mask : Z)
  : step :=
  (stop_disable_interrupts ;; stop_completion callbacks callback_mask)%step.

(** Lines 388-414: the transfer ends early (buffer exhausted, or NACK from
    the master). *)
Definition early_termination (callbacks : callback_table) (callback_mask : Z)
  : step :=
  (exec (on_module (fun m => set_buffer_length 0 (set_buffer_remaining 0 m))) ;;
   (fun s =>
      if direction_eqb (transfer_direction (module s)) I2C_TRANSFER_WRITE
      then
        (exec (_i2c_slave_set_ctrlb_ackact false) ;;
         exec (access (CTRLB_or (SERCOM_I2CS_CTRLB_CMD hdr 2))) ;;
         exec (on_module (set_status STATUS_ERR_OVERFLOW)) ;;
         invoke_if callbacks callback_mask I2C_SLAVE_CALLBACK_ERROR)%step s
      else
        (exec (_i2c_slave_set_ctrlb_ackact false) ;;
         exec (access (CTRLB_or (SERCOM_I2CS_CTRLB_CMD hdr 2))) ;;
         exec (on_module (set_status STATUS_OK)) ;;
         exec (access (INTENCLR_write (SERCOM_I2CS_INTFLAG_DRDY hdr))))%step s))
  %step.

(** Lines 381-425: the data ready branch. *)
Definition data_ready (callbacks : callback_table) (callback_mask : Z)
  : step :=
  fun s =>
    let m := module s in
    if (buffer_remaining m <=? 0)
       || (direction_eqb (transfer_direction m) I2C_TRANSFER_READ
           && (buffer_remaining m <? buffer_length m)
           && flag_set (STATUS (i2c_hw s)) (SERCOM_I2CS_STATUS_RXNACK hdr))
    then early_termination callbacks callback_mask s
    else if (0 <? buffer_length m) && (0 <? buffer_remaining m) then
      if direction_eqb (transfer_direction m) I2C_TRANSFER_WRITE
      then exec _i2c_slave_read s
      else exec _i2c_slave_write s
    else skip s.

(** [_i2c_slave_interrupt_handler], lines 258-426, on the machine of the
    SERCOM instance that raised the interrupt. *)
Definition _i2c_slave_interrupt_handler (callbacks : callback_table) : step :=
  fun s =>
    let callback_mask := enabled_callback (module s) in
    let callback_mask :=
      uint8 (Z.land callback_mask (registered_callback (module s))) in
    if flag_set (INTFLAG (i2c_hw s)) (SERCOM_I2CS_INTFLAG_AMATCH hdr) then
      address_match callbacks callback_mask s
    else if flag_set (INTFLAG (i2c_hw s)) (SERCOM_I2CS_INTFLAG_PREC hdr) then
      stop_condition callbacks callback_mask s
    else if flag_set (INTFLAG (i2c_hw s)) (SERCOM_I2CS_INTFLAG_DRDY hdr) then
      data_ready callbacks callback_mask s
    else skip s.

(** The hardware raises the interrupt with register contents [regs]. *)
Definition interrupt (callbacks : callback_table) (regs : SercomI2cs) : step :=
  fun s => _i2c_slave_interrupt_handler callbacks (with_hw regs s).

(** The interrupts of a list of hardware events, one after the other. *)
Fixpoint interrupts (callbacks : callback_table) (events : list SercomI2cs)
  : step :=
  match events with
  | [] => skip
  | regs :: events' =>
      (interrupt callbacks regs ;; interrupts callbacks events')%step
  end.

(** ** Vocabulary of the statements *)

(** The branch of the handler an interrupt takes, by its pending flags. *)
Definition address_match_event (regs : SercomI2cs) : Prop :=
  flag_set (INTFLAG regs) (SERCOM_I2CS_INTFLAG_AMATCH hdr) = true.

Definition stop_event (regs : SercomI2cs) : Prop :=
  flag_set (INTFLAG regs) (SERCOM_I2CS_INTFLAG_AMATCH hdr) = false /\
  flag_set (INTFLAG regs) (SERCOM_I2CS_INTFLAG_PREC hdr) = true.

Definition data_ready_event (regs : SercomI2cs) : Prop :=
  flag_set (INTFLAG regs) (SERCOM_I2CS_INTFLAG_AMATCH hdr) = false /\
  flag_set (INTFLAG regs) (SERCOM_I2CS_INTFLAG_PREC hdr) = false /\
  flag_set (INTFLAG regs) (SERCOM_I2CS_INTFLAG_DRDY hdr) = true.

(** The bit of callback [k] is set in both the enabled and the registered
    mask of the session. *)
Definition callback_on (m : i2c_slave_module) (k : i2c_slave_callback) : bool :=
  flag_set (enabled_callback m) (callback_bit k)
  && flag_set (registered_callback m) (callback_bit k).

(** The two masks are [uint8_t]. *)
Definition masks_in_range (m : i2c_slave_module) : Prop :=
  (0 <= enabled_callback m < 256) /\ (0 <= registered_callback m < 256).

(** The invariant of the job counters. *)
Definition counters_ordered (s : machine) : Prop :=
  buffer_remaining (module s) <= buffer_length (module s).

(** A handler step keeps a property of the machine. *)
Definition preserves (P : machine -> Prop) (f : step) : Prop :=
  forall s, P s -> P (fst (f s)).

(** What code outside the driver does to a machine: calls of the control
    API, and work that leaves the session fields alone. *)
Inductive control_api_call : machine -> machine -> Prop :=
| call_read_packet_job packet s :
    control_api_call s (snd (i2c_slave_read_packet_job packet s))
| call_write_packet_job packet s :
    control_api_call s (snd (i2c_slave_write_packet_job packet s))
| call_enable_nack_on_address s :
    control_api_call s (i2c_slave_enable_nack_on_address s)
| call_disable_nack_on_address s :
    control_api_call s (i2c_slave_disable_nack_on_address s)
| call_register_callback k s :
    control_api_call s (i2c_slave_register_callback k s)
| call_unregister_callback k s :
    control_api_call s (i2c_slave_unregister_callback k s)
| application_work s s' :
    module s' = module s -> control_api_call s s'.

Inductive control_api_calls : machine -> machine -> Prop :=
| no_call s : control_api_calls s s
| more_calls s s1 s2 :
    control_api_call s s1 -> control_api_calls s1 s2 ->
    control_api_calls s s2.

(** Callbacks that touch the session through the control API only. *)
Definition uses_control_api (callbacks : callback_table) : Prop :=
  forall k s, control_api_calls s (callbacks k s).

(** The machines reachable from an idle session ([buffer_remaining] is 0,
    [buffer_length] an unsigned value) by control API calls and
    interrupts. *)
Inductive reachable : machine -> Prop :=
| reachable_idle s :
    buffer_remaining (module s) = 0 -> 0 <= buffer_length (module s) ->
    reachable s
| reachable_api s s' :
    reachable s -> control_api_call s s' -> reachable s'
| reachable_interrupt callbacks regs s :
    reachable s -> uses_control_api callbacks ->
    reachable (fst (interrupt callbacks regs s)).

End Driver.

(** ** Concrete inputs *)

(** A choice of the header constants, after the SAM R34 device header and
    the ASF driver header, to run the driver on concrete inputs.  No
    general theorem depends on these values. *)
Definition samr34 : header_constants :=
  {| SERCOM_I2CS_INTFLAG_PREC := 1;
     SERCOM_I2CS_INTFLAG_AMATCH := 2;
     SERCOM_I2CS_INTFLAG_DRDY := 4;
     SERCOM_I2CS_STATUS_BUSERR := 1;
     SERCOM_I2CS_STATUS_COLL := 2;
     SERCOM_I2CS_STATUS_RXNACK := 4;
     SERCOM_I2CS_STATUS_DIR := 8;
     SERCOM_I2CS_STATUS_LOWTOUT := 64;
     SERCOM_I2CS_CTRLB_CMD := fun v => Z.land (Z.shiftl 3 16) (Z.shiftl v 16);
     callback_index := fun k =>
       match k with
       | I2C_SLAVE_CALLBACK_WRITE_COMPLETE => 0
       | I2C_SLAVE_CALLBACK_READ_COMPLETE => 1
       | I2C_SLAVE_CALLBACK_READ_REQUEST => 2
       | I2C_SLAVE_CALLBACK_WRITE_REQUEST => 3
       | I2C_SLAVE_CALLBACK_ERROR => 4
       | I2C_SLAVE_CALLBACK_ERROR_LAST_TRANSFER => 5
       end |}.

(** Register contents of the three kinds of event. *)
Definition amatch_regs (stat : Z) : SercomI2cs :=
  {| INTFLAG := 2; STATUS := stat; DATA := 0 |}.
Definition prec_regs : SercomI2cs :=
  {| INTFLAG := 1; STATUS := 0; DATA := 0 |}.
Definition drdy_regs (byte : Z) : SercomI2cs :=
  {| INTFLAG := 4; STATUS := 0; DATA := byte |}.

(** Memory holding 10, 11, 12 at addresses 100, 101, 102 and 0 elsewhere. *)
Definition sample_ram : Z -> Z :=
  fun a => if (100 <=? a) && (a <=? 102) then a - 90 else 0.

(** A session with all six callbacks registered and enabled. *)
Definition sample_session (length remaining : Z)
  (dir : i2c_transfer_direction) (st : status_code) : machine :=
  {| module :=
       {| registered_callback := 63;
          enabled_callback := 63;
          buffer_length := length;
          buffer_remaining := remaining;
          buffer := 100;
          transfer_direction := dir;
          nack_on_address := false;
          status := st |};
     i2c_hw := {| INTFLAG := 0; STATUS := 0; DATA := 0 |};
     ram := sample_ram;
     accesses := [] |}.

Definition sample_packet (n : Z) : i2c_slave_packet :=
  {| data_length := n; data := 100 |}.

(** Callbacks that do nothing. *)
Definition idle_callbacks : callback_table := fun _ s => s.

(** Callbacks of an application that answers a write request of the master
    by submitting a read job of 2 bytes and does nothing else. *)
Definition sample_callbacks : callback_table :=
  fun k s =>
    match k with
    | I2C_SLAVE_CALLBACK_WRITE_REQUEST =>
        snd (i2c_slave_read_packet_job samr34 (sample_packet 2) s)
    | _ => s
    end.

(** What an interrupt leaves alone: [s'] has the callback masks and the
    NACK policy of [s], and the memory of [s] except at address [p]. *)
Definition unchanged_outside (p : Z) (s s' : machine) : Prop :=
  registered_callback (module s') = registered_callback (module s) /\
  enabled_callback (module s') = enabled_callback (module s) /\
  nack_on_address (module s') = nack_on_address (module s) /\
  forall a, a <> p -> ram s' a = ram s a.

(** * TCC callback driver

    The callback functions and the interrupt handler of the TCC driver
    (the second source file).  The table [_tcc_intflag] is built there
    from masks of the device header and a macro repetition over the
    channels, which are not among the sources: the driver is embedded over
    any table.  A callback type is its index in the table; the enumeration
    has [TCC_CALLBACK_N] values, the length of the table.  The two masks of
    [struct tcc_module] are 32-bit, as the table and the mask the handler
    builds from them. *)

Definition uint32 (x : Z) : Z := x mod 4294967296.

(** The two masks of [struct tcc_module]; the callback table [callback] is
    passed to the handler separately. *)
Record tcc_module : Type := {
  register_callback_mask : Z;
  enable_callback_mask : Z
}.

(** Accesses of the TCC driver to the hardware: the register writes, and
    the enabling and disabling of the interrupt vector of the instance
    ([system_interrupt_enable] and [system_interrupt_disable] on the vector
    of [_tcc_interrupt_get_interrupt_vector]). *)
Inductive tcc_access : Type :=
| TCC_INTFLAG_write (mask : Z)
| TCC_INTENSET_write (mask : Z)
| TCC_INTENCLR_write (mask : Z)
| TCC_vector_enable
| TCC_vector_disable.

Record tcc_machine : Type := {
  tcc : tcc_module;
  TCC_INTFLAG : Z;
  tcc_accesses : list tcc_access
}.

Definition set_register_callback_mask (v : Z) (s : tcc_machine) : tcc_machine :=
  {| tcc := {| register_callback_mask := v;
               enable_callback_mask := enable_callback_mask (tcc s) |};
     TCC_INTFLAG := TCC_INTFLAG s;
     tcc_accesses := tcc_accesses s |}.

Definition set_enable_callback_mask (v : Z) (s : tcc_machine) : tcc_machine :=
  {| tcc := {| register_callback_mask := register_callback_mask (tcc s);
               enable_callback_mask := v |};
     TCC_INTFLAG := TCC_INTFLAG s;
     tcc_accesses := tcc_accesses s |}.

Definition tcc_access_hw (a : tcc_access) (s : tcc_machine) : tcc_machine :=
  {| tcc := tcc s; TCC_INTFLAG := TCC_INTFLAG s;
     tcc_accesses := tcc_accesses s ++ [a] |}.

Definition tcc_callback_t : Type := tcc_machine -> tcc_machine.

Section TccDriver.

Variable _tcc_intflag : list Z.

Definition TCC_CALLBACK_N : nat := length _tcc_intflag.

(** [_tcc_intflag[callback_type]]. *)
Definition tcc_intflag_of (callback_type : nat) : Z :=
  nth callback_type _tcc_intflag 0.

(** [tcc_register_callback]: the slot of the table is set by the caller
    of the handler; the module keeps the mask. *)
Definition tcc_register_callback (callback_type : nat) (s : tcc_machine)
  : status_code * tcc_machine :=
  (STATUS_OK,
   set_register_callback_mask
     (uint32 (Z.lor (register_callback_mask (tcc s))
                    (tcc_intflag_of callback_type))) s).

(** [tcc_unregister_callback]. *)
Definition tcc_unregister_callback (callback_type : nat) (s : tcc_machine)
  : status_code * tcc_machine :=
  (STATUS_OK,
   set_register_callback_mask
     (uint32 (Z.land (register_callback_mask (tcc s))
                     (Z.lnot (tcc_intflag_of callback_type)))) s).

(** [tcc_enable_callback]. *)
Definition tcc_enable_callback (callback_type : nat) (s : tcc_machine)
  : tcc_machine :=
  let s := tcc_access_hw TCC_vector_enable s in
  let s := set_enable_callback_mask
             (uint32 (Z.lor (enable_callback_mask (tcc s))
                            (tcc_intflag_of callback_type))) s in
  tcc_access_hw (TCC_INTENSET_write (tcc_intflag_of callback_type)) s.

(** [tcc_disable_callback]. *)
Definition tcc_disable_callback (callback_type : nat) (s : tcc_machine)
  : tcc_machine :=
  let s := tcc_access_hw TCC_vector_disable s in
  let s := set_enable_callback_mask
             (uint32 (Z.land (enable_callback_mask (tcc s))
                             (Z.lnot (tcc_intflag_of callback_type)))) s in
  tcc_access_hw (TCC_INTENCLR_write (tcc_intflag_of callback_type)) s.

(** The loop of [_tcc_interrupt_handler] from index [i] on, [flags] being
    the table from that index: a callback whose flag is in the mask is
    invoked, then its flag is written to INTFLAG.  The result is the final
    machine and the indices invoked, in order. *)
Fixpoint tcc_scan (callback : nat -> tcc_callback_t)
  (interrupt_and_callback_status_mask : Z) (i : nat) (flags : list Z)
  (s : tcc_machine) : tcc_machine * list nat :=
  match flags with
  | [] => (s, [])
  | flag :: flags' =>
      if flag_set interrupt_and_callback_status_mask flag then
        let s := callback i s in
        let s := tcc_access_hw (TCC_INTFLAG_write flag) s in
        let (s', invoked) :=
          tcc_scan callback interrupt_and_callback_status_mask (S i) flags' s in
        (s', i :: invoked)
      else
        tcc_scan callback interrupt_and_callback_status_mask (S i) flags' s
  end.

(** [_tcc_interrupt_handler], on the machine of the instance. *)
Definition _tcc_interrupt_handler (callback : nat -> tcc_callback_t)
  (s : tcc_machine) : tcc_machine * list nat :=
  let interrupt_and_callback_status_mask :=
    Z.land (Z.land (TCC_INTFLAG s) (register_callback_mask (tcc s)))
           (enable_callback_mask (tcc s)) in
  tcc_scan callback interrupt_and_callback_status_mask 0 _tcc_intflag s.

End TccDriver.

(** A table of eight single-bit flags, and a machine with the overflow and
    error callbacks (indices 0 and 3) registered and enabled, and overflow,
    trigger and error pending. *)
Definition sample_tcc_intflag : list Z := [1; 2; 4; 8; 4096; 8192; 16384; 32768].

Definition sample_tcc : tcc_machine :=
  {| tcc := {| register_callback_mask := 9; enable_callback_mask := 9 |};
     TCC_INTFLAG := 11;
     tcc_accesses := [] |}.

Definition idle_tcc_callbacks : nat -> tcc_callback_t := fun _ s => s.

(** * Bootloader main loop

    The loop of [main] (the third source file).  [UART_INIT], [available],
    [getChar] and [boot_task] are declared there and defined elsewhere, and
    [ACK] comes from a configuration header: the loop is embedded over any
    of them, acting on a state [uart] of their own. *)

Definition BOOT_DELAY : Z := 1048575.

Section Bootloader.

Variable uart : Type.
Variable UART_INIT : uart -> uart.
Variable available : uart -> Z * uart.
Variable getChar : uart -> Z * uart.
Variable boot_task : uart -> uart.
Variable ACK : Z.

(** One turn of the [while (1)] loop, on the counter [cnt] and the state
    of the serial line. *)
Definition main_iteration (st : Z * uart) : Z * uart :=
  let (cnt, u) := st in
  let (a, u) := available u in
  let u :=
    if negb (a =? 0) then
      let (c, u) := getChar u in
      if ACK =? c then boot_task u else u
    else u in
  let old := cnt in
  let cnt := uint32 (cnt - 1) in
  let cnt := if 0 =? old then BOOT_DELAY else cnt in
  (cnt, u).

Fixpoint main_loop (turns : nat) (st : Z * uart) : Z * uart :=
  match turns with
  | O => st
  | S turns' => main_loop turns' (main_iteration st)
  end.

(** [main], cut after [turns] turns of its loop. *)
Definition main (turns : nat) (u : uart) : Z * uart :=
  main_loop turns (BOOT_DELAY, UART_INIT u).

End Bootloader.

(** * Properties *)

(** ** Bit tests *)

Lemma shiftl_1_negative (i : Z) : i < 0 -> Z.shiftl 1 i = 0.
Proof.
  intros Hi.
  rewrite <- (Z.opp_involutive i), Z.shiftl_opp_r, Z.shiftr_div_pow2 by lia.
  apply Z.div_small. split; [lia|].
  apply Z.pow_gt_1; lia.
Qed.

Lemma land_pow2 (x i : Z) :
  0 <= i -> Z.land x (2 ^ i) = if Z.testbit x i then 2 ^ i else 0.
Proof.
  intros Hi. apply Z.bits_inj'. intros n Hn.
  rewrite Z.land_spec, Z.pow2_bits_eqb by assumption.
  destruct (Z.eqb_spec i n) as [->|Hne].
  - destruct (Z.testbit x n); cbn.
    + rewrite Z.pow2_bits_eqb, Z.eqb_refl by assumption. reflexivity.
    + now rewrite Z.bits_0.
  - rewrite andb_false_r.
    destruct (Z.testbit x i).
    + rewrite Z.pow2_bits_eqb by assumption.
      symmetry. now apply Z.eqb_neq.
    + now rewrite Z.bits_0.
Qed.

(** [x & (1 << i)] is non-zero iff bit [i] of [x] is set. *)
Lemma flag_set_bit (x i : Z) :
  flag_set x (Z.shiftl 1 i) = (0 <=? i) && Z.testbit x i.
Proof.
  unfold flag_set.
  destruct (Z.leb_spec 0 i) as [Hi|Hi]; cbn.
  - rewrite Z.shiftl_1_l, land_pow2 by assumption.
    destruct (Z.testbit x i); cbn.
    + apply negb_true_iff, Z.eqb_neq.
      assert (0 < 2 ^ i) by (apply Z.pow_pos_nonneg; lia). lia.
    + reflexivity.
  - now rewrite shiftl_1_negative, Z.land_0_r by assumption.
Qed.

Lemma uint8_testbit_high (x i : Z) :
  0 <= x < 256 -> 8 <= i -> Z.testbit x i = false.
Proof.
  intros Hx Hi.
  rewrite <- (Z.mod_small x (2 ^ 8)) by (change (2 ^ 8) with 256; lia).
  apply Z.mod_pow2_bits_high. lia.
Qed.

Lemma uint8_land_testbit (e r i : Z) :
  0 <= e < 256 -> 0 <= i ->
  Z.testbit (uint8 (Z.land e r)) i = Z.testbit e i && Z.testbit r i.
Proof.
  intros He Hi. unfold uint8. change 256 with (2 ^ 8).
  destruct (Z.ltb_spec i 8) as [Hlt|Hge].
  - rewrite Z.mod_pow2_bits_low by lia. apply Z.land_spec.
  - rewrite Z.mod_pow2_bits_high by lia.
    now rewrite (uint8_testbit_high e i He Hge).
Qed.

(** ** Sequencing of handler steps *)

Lemma seq_pure_l (f g : step) (s s' : machine) :
  f s = (s', []) -> seq f g s = g s'.
Proof.
  intros Hf. unfold seq. rewrite Hf. now destruct (g s').
Qed.

Lemma seq_exec (f : machine -> machine) (g : step) (s : machine) :
  seq (exec f) g s = g (f s).
Proof. now apply seq_pure_l. Qed.

Lemma seq_assoc (f g h : step) (s : machine) :
  seq (seq f g) h s = seq f (seq g h) s.
Proof.
  unfold seq. destruct (f s) as [s1 l1]. destruct (g s1) as [s2 l2].
  destruct (h s2) as [s3 l3]. now rewrite app_assoc.
Qed.

Lemma seq_fst (f g : step) (s : machine) :
  fst (seq f g s) = fst (g (fst (f s))).
Proof. unfold seq. destruct (f s) as [s1 l1]; cbn. now destruct (g s1). Qed.

Lemma seq_snd (f g : step) (s : machine) :
  snd (seq f g s) = snd (f s) ++ snd (g (fst (f s))).
Proof. unfold seq. destruct (f s) as [s1 l1]; cbn. now destruct (g s1). Qed.

Section Dispatch.

Variable hdr : header_constants.

(** *** The branch taken by the handler *)

Lemma handler_address_match (callbacks : callback_table) (s : machine) :
  address_match_event hdr (i2c_hw s) ->
  _i2c_slave_interrupt_handler hdr callbacks s
  = address_match hdr callbacks
      (uint8 (Z.land (enabled_callback (module s))
                     (registered_callback (module s)))) s.
Proof.
  unfold address_match_event, _i2c_slave_interrupt_handler.
  intros H. cbv zeta. now rewrite H.
Qed.

Lemma handler_stop_condition (callbacks : callback_table) (s : machine) :
  stop_event hdr (i2c_hw s) ->
  _i2c_slave_interrupt_handler hdr callbacks s
  = stop_condition hdr callbacks
      (uint8 (Z.land (enabled_callback (module s))
                     (registered_callback (module s)))) s.
Proof.
  unfold stop_event, _i2c_slave_interrupt_handler.
  intros [H1 H2]. cbv zeta. now rewrite H1, H2.
Qed.

Lemma handler_data_ready (callbacks : callback_table) (s : machine) :
  data_ready_event hdr (i2c_hw s) ->
  _i2c_slave_interrupt_handler hdr callbacks s
  = data_ready hdr callbacks
      (uint8 (Z.land (enabled_callback (module s))
                     (registered_callback (module s)))) s.
Proof.
  unfold data_ready_event, _i2c_slave_interrupt_handler.
  intros (H1 & H2 & H3). cbv zeta. now rewrite H1, H2, H3.
Qed.

(** *** The callback mask *)

(** The mask the handler computes gates a callback exactly when the
    callback is enabled and registered. *)
Lemma callback_mask_on (m : i2c_slave_module) (k : i2c_slave_callback) :
  masks_in_range m ->
  flag_set (uint8 (Z.land (enabled_callback m) (registered_callback m)))
    (callback_bit hdr k)
  = callback_on hdr m k.
Proof.
  intros [He _]. unfold callback_on, callback_bit.
  rewrite !flag_set_bit.
  destruct (Z.leb_spec 0 (callback_index hdr k)) as [Hi|Hi]; cbn; [|reflexivity].
  now apply uint8_land_testbit.
Qed.

End Dispatch.

(** ** Job submission *)

Section PacketJobs.

Variable hdr : header_constants.

(** C1: [i2c_slave_read_packet_job] and [i2c_slave_write_packet_job] accept
    a job iff [buffer_remaining] is 0 at the call.  With
    [buffer_remaining > 0] they return [STATUS_BUSY] and leave the machine
    as it is; with [buffer_remaining = 0] they return [STATUS_OK], copy the
    packet's [data] and [data_length] into [buffer], [buffer_remaining] and
    [buffer_length], and set [status] to [STATUS_BUSY]. *)
Theorem packet_job_accepted_iff_idle (packet : i2c_slave_packet) (s : machine) :
  0 <= buffer_remaining (module s) ->
  forall job,
    job = i2c_slave_read_packet_job hdr \/ job = i2c_slave_write_packet_job hdr ->
    (0 < buffer_remaining (module s) -> job packet s = (STATUS_BUSY, s)) /\
    (buffer_remaining (module s) = 0 ->
       fst (job packet s) = STATUS_OK /\
       buffer (module (snd (job packet s))) = data packet /\
       buffer_remaining (module (snd (job packet s))) = data_length packet /\
       buffer_length (module (snd (job packet s))) = data_length packet /\
       status (module (snd (job packet s))) = STATUS_BUSY) /\
    (fst (job packet s) = STATUS_OK <-> buffer_remaining (module s) = 0).
Proof.
  intros Hrange job Hjob.
  assert (Hdef : job packet s =
                 if 0 <? buffer_remaining (module s) then (STATUS_BUSY, s)
                 else (STATUS_OK, save_packet hdr packet s))
    by (destruct Hjob; subst job; reflexivity).
  rewrite Hdef.
  destruct (Z.ltb_spec 0 (buffer_remaining (module s))) as [Hbusy|Hidle].
  - split; [reflexivity|]. split; [lia|].
    cbn. split; [discriminate|lia].
  - split; [lia|]. split.
    + intros _. cbn. repeat split; reflexivity.
    + cbn. split; [lia|reflexivity].
Qed.

End PacketJobs.

(** Witness of C1: a write job of 3 bytes on an idle session. *)
Lemma packet_job_accepted_iff_idle_witness :
  fst (i2c_slave_write_packet_job samr34 (sample_packet 3)
         (sample_session 0 0 I2C_TRANSFER_READ STATUS_OK)) = STATUS_OK
  <-> buffer_remaining
        (module (sample_session 0 0 I2C_TRANSFER_READ STATUS_OK)) = 0.
Proof.
  apply (packet_job_accepted_iff_idle samr34 (sample_packet 3)
           (sample_session 0 0 I2C_TRANSFER_READ STATUS_OK)).
  - cbn. lia.
  - right. reflexivity.
Defined.

(** ** Stop condition *)

Section StopCondition.

Variable hdr : header_constants.

(** The interrupt registers at a stop condition. *)
Lemma stop_disable_interrupts_effect (s : machine) :
  exists s' tail,
    stop_disable_interrupts hdr s = (s', []) /\
    module s' = module s /\
    ram s' = ram s /\
    accesses s'
    = accesses s
      ++ INTFLAG_write (SERCOM_I2CS_INTFLAG_PREC hdr)
         :: INTENCLR_write (Z.lor (SERCOM_I2CS_INTFLAG_PREC hdr)
                                  (SERCOM_I2CS_INTFLAG_DRDY hdr))
         :: tail /\
    (tail = [] \/
     tail = [INTENCLR_write (SERCOM_I2CS_INTFLAG_AMATCH hdr)]).
Proof.
  unfold stop_disable_interrupts. rewrite !seq_exec.
  cbn [module access].
  destruct (negb _); unfold exec, skip; do 2 eexists;
    (split; [reflexivity|]); (split; [reflexivity|]);
    (split; [reflexivity|]); cbn [accesses access];
    rewrite <- ?app_assoc; cbn [app]; (split; [reflexivity|]);
    [now right | now left].
Qed.

(** The stop branch outside an error status: the interrupt sources are
    disabled, the transfer is marked done, and the completion callback is
    selected on the resulting machine. *)
Lemma stop_condition_running (callbacks : callback_table) (mask : Z)
  (s : machine) :
  status (module s) <> STATUS_ERR_OVERFLOW ->
  status (module s) <> STATUS_ERR_IO ->
  exists s1,
    module s1 = transfer_done (module s) /\
    ram s1 = ram s /\
    stop_condition hdr callbacks mask s = stop_callback hdr callbacks mask s1.
Proof.
  intros Hov Hio. unfold stop_condition.
  destruct (stop_disable_interrupts_effect s)
    as (s' & tail & Hrun & Hm' & Hr' & _ & _).
  rewrite (seq_pure_l _ _ _ _ Hrun). unfold stop_completion.
  assert (Hst : negb (status_code_eqb (status (module s')) STATUS_ERR_OVERFLOW
                      || status_code_eqb (status (module s')) STATUS_ERR_IO)
                = true).
  { rewrite Hm'. destruct (status (module s)); try reflexivity; congruence. }
  rewrite Hst, seq_exec.
  exists (on_module transfer_done s'). cbn. now rewrite Hm', Hr'.
Qed.

(** The completion callback of a stop condition, by direction and
    masks. *)
Lemma stop_callback_selects (callbacks : callback_table)
  (m : i2c_slave_module) (s1 : machine) :
  masks_in_range m ->
  stop_callback hdr callbacks
    (uint8 (Z.land (enabled_callback m) (registered_callback m))) s1
  = match transfer_direction (module s1) with
    | I2C_TRANSFER_WRITE =>
        if callback_on hdr m I2C_SLAVE_CALLBACK_READ_COMPLETE
        then (callbacks I2C_SLAVE_CALLBACK_READ_COMPLETE s1,
              [I2C_SLAVE_CALLBACK_READ_COMPLETE])
        else (s1, [])
    | I2C_TRANSFER_READ =>
        if callback_on hdr m I2C_SLAVE_CALLBACK_WRITE_COMPLETE
        then (callbacks I2C_SLAVE_CALLBACK_WRITE_COMPLETE s1,
              [I2C_SLAVE_CALLBACK_WRITE_COMPLETE])
        else (s1, [])
    end.
Proof.
  intros Hmask. unfold stop_callback.
  rewrite !(callback_mask_on hdr m) by assumption.
  destruct (transfer_direction (module s1)); cbn [direction_eqb];
    rewrite ?andb_true_r, ?andb_false_r;
    now destruct (callback_on _ _ _).
Qed.

(** A stop condition outside an error status. *)
Lemma stop_event_completion (callbacks : callback_table) (s : machine) :
  stop_event hdr (i2c_hw s) ->
  masks_in_range (module s) ->
  status (module s) <> STATUS_ERR_OVERFLOW ->
  status (module s) <> STATUS_ERR_IO ->
  exists s1,
    module s1 = transfer_done (module s) /\
    ram s1 = ram s /\
    _i2c_slave_interrupt_handler hdr callbacks s
    = match transfer_direction (module s) with
      | I2C_TRANSFER_WRITE =>
          if callback_on hdr (module s) I2C_SLAVE_CALLBACK_READ_COMPLETE
          then (callbacks I2C_SLAVE_CALLBACK_READ_COMPLETE s1,
                [I2C_SLAVE_CALLBACK_READ_COMPLETE])
          else (s1, [])
      | I2C_TRANSFER_READ =>
          if callback_on hdr (module s) I2C_SLAVE_CALLBACK_WRITE_COMPLETE
          then (callbacks I2C_SLAVE_CALLBACK_WRITE_COMPLETE s1,
                [I2C_SLAVE_CALLBACK_WRITE_COMPLETE])
          else (s1, [])
      end.
Proof.
  intros Hev Hmask Hov Hio.
  rewrite (handler_stop_condition hdr callbacks s Hev).
  destruct (stop_condition_running callbacks
              (uint8 (Z.land (enabled_callback (module s))
                             (registered_callback (module s)))) s Hov Hio)
    as (s1 & Hm & Hr & ->).
  exists s1. split; [assumption|]. split; [assumption|].
  rewrite (stop_callback_selects callbacks (module s) s1 Hmask).
  now rewrite Hm.
Qed.

(** C2: a stop condition met outside [STATUS_ERR_OVERFLOW] and
    [STATUS_ERR_IO] sets [status] to [STATUS_OK] and both job counters to 0,
    then invokes exactly the completion callback of the recorded direction
    ([READ_COMPLETE] after a master write, [WRITE_COMPLETE] after a master
    read), and that only when its bit is set in both the enabled and the
    registered mask.  [s1] is the machine the callback receives, or the
    final machine when none is invoked. *)
Theorem stop_condition_completes (callbacks : callback_table) (s : machine) :
  stop_event hdr (i2c_hw s) ->
  masks_in_range (module s) ->
  status (module s) <> STATUS_ERR_OVERFLOW ->
  status (module s) <> STATUS_ERR_IO ->
  exists s1,
    status (module s1) = STATUS_OK /\
    buffer_length (module s1) = 0 /\
    buffer_remaining (module s1) = 0 /\
    ram s1 = ram s /\
    (transfer_direction (module s) = I2C_TRANSFER_WRITE ->
     _i2c_slave_interrupt_handler hdr callbacks s
     = if callback_on hdr (module s) I2C_SLAVE_CALLBACK_READ_COMPLETE
       then (callbacks I2C_SLAVE_CALLBACK_READ_COMPLETE s1,
             [I2C_SLAVE_CALLBACK_READ_COMPLETE])
       else (s1, [])) /\
    (transfer_direction (module s) = I2C_TRANSFER_READ ->
     _i2c_slave_interrupt_handler hdr callbacks s
     = if callback_on hdr (module s) I2C_SLAVE_CALLBACK_WRITE_COMPLETE
       then (callbacks I2C_SLAVE_CALLBACK_WRITE_COMPLETE s1,
             [I2C_SLAVE_CALLBACK_WRITE_COMPLETE])
       else (s1, [])).
Proof.
  intros Hev Hmask Hov Hio.
  destruct (stop_event_completion callbacks s Hev Hmask Hov Hio)
    as (s1 & Hm & Hr & Hrun).
  exists s1. rewrite Hm. do 4 (split; [reflexivity || assumption|]).
  split; intros Hdir; rewrite Hrun, Hdir; reflexivity.
Qed.

End StopCondition.

(** Witness of C2: a stop condition after a master read. *)
Lemma stop_condition_completes_witness :
  exists s1,
    status (module s1) = STATUS_OK /\
    buffer_length (module s1) = 0 /\
    buffer_remaining (module s1) = 0 /\
    _i2c_slave_interrupt_handler samr34 idle_callbacks
      (with_hw prec_regs (sample_session 3 0 I2C_TRANSFER_READ STATUS_BUSY))
    = (s1, [I2C_SLAVE_CALLBACK_WRITE_COMPLETE]).
Proof.
  destruct (stop_condition_completes samr34 idle_callbacks
              (with_hw prec_regs
                 (sample_session 3 0 I2C_TRANSFER_READ STATUS_BUSY)))
    as (s1 & H1 & H2 & H3 & _ & _ & Hread).
  - split; reflexivity.
  - split; cbn; lia.
  - discriminate.
  - discriminate.
  - exists s1. repeat (split; [assumption|]).
    now rewrite (Hread eq_refl).
Defined.

Section StopConditionError.

Variable hdr : header_constants.




End StopConditionError.


(** ** Data ready: early termination *)

Section EarlyTermination.

Variable hdr : header_constants.

(** The overflow arm of the early termination, up to the ERROR callback. *)
Lemma early_termination_write (callbacks : callback_table) (mask : Z)
  (s : machine) :
  transfer_direction (module s) = I2C_TRANSFER_WRITE ->
  exists s1,
    module s1 = set_status STATUS_ERR_OVERFLOW
                  (set_buffer_length 0 (set_buffer_remaining 0 (module s))) /\
    i2c_hw s1 = i2c_hw s /\
    ram s1 = ram s /\
    accesses s1 = accesses s ++ [CTRLB_ackact false;
                                 CTRLB_or (SERCOM_I2CS_CTRLB_CMD hdr 2)] /\
    early_termination hdr callbacks mask s
    = invoke_if hdr callbacks mask I2C_SLAVE_CALLBACK_ERROR s1.
Proof.
  intros Hdir. unfold early_termination. rewrite seq_exec.
  cbn [module on_module set_buffer_length set_buffer_remaining
       transfer_direction].
  rewrite Hdir. cbn [direction_eqb]. rewrite !seq_exec.
  match goal with
  | |- exists s1, _ /\ _ /\ _ /\ _ /\ invoke_if _ _ _ _ ?x = _ => exists x
  end.
  repeat split; try reflexivity.
  cbn. now rewrite <- app_assoc.
Qed.

(** The normal-end arm of the early termination. *)
Lemma early_termination_read (callbacks : callback_table) (mask : Z)
  (s : machine) :
  transfer_direction (module s) = I2C_TRANSFER_READ ->
  exists s1,
    module s1 = set_status STATUS_OK
                  (set_buffer_length 0 (set_buffer_remaining 0 (module s))) /\
    i2c_hw s1 = i2c_hw s /\
    ram s1 = ram s /\
    accesses s1 = accesses s ++ [CTRLB_ackact false;
                                 CTRLB_or (SERCOM_I2CS_CTRLB_CMD hdr 2);
                                 INTENCLR_write (SERCOM_I2CS_INTFLAG_DRDY hdr)] /\
    early_termination hdr callbacks mask s = (s1, []).
Proof.
  intros Hdir. unfold early_termination. rewrite seq_exec.
  cbn [module on_module set_buffer_length set_buffer_remaining
       transfer_direction].
  rewrite Hdir. cbn [direction_eqb]. rewrite !seq_exec. unfold exec.
  match goal with
  | |- exists s1, _ /\ _ /\ _ /\ _ /\ (?x, _) = _ => exists x
  end.
  repeat split; try reflexivity.
  cbn. now rewrite <- !app_assoc.
Qed.

(** The data ready branch on an exhausted buffer, direction Write. *)
Lemma data_ready_overflow_step (callbacks : callback_table) (s : machine) :
  data_ready_event hdr (i2c_hw s) ->
  masks_in_range (module s) ->
  transfer_direction (module s) = I2C_TRANSFER_WRITE ->
  buffer_remaining (module s) <= 0 ->
  exists s1,
    module s1 = set_status STATUS_ERR_OVERFLOW
                  (set_buffer_length 0 (set_buffer_remaining 0 (module s))) /\
    ram s1 = ram s /\
    accesses s1 = accesses s ++ [CTRLB_ackact false;
                                 CTRLB_or (SERCOM_I2CS_CTRLB_CMD hdr 2)] /\
    _i2c_slave_interrupt_handler hdr callbacks s
    = if callback_on hdr (module s) I2C_SLAVE_CALLBACK_ERROR
      then (callbacks I2C_SLAVE_CALLBACK_ERROR s1, [I2C_SLAVE_CALLBACK_ERROR])
      else (s1, []).
Proof.
  intros Hev Hmask Hdir Hrem.
  rewrite (handler_data_ready hdr callbacks s Hev).
  unfold data_ready. cbv zeta.
  replace (buffer_remaining (module s) <=? 0) with true
    by (symmetry; now apply Z.leb_le).
  cbn [orb].
  destruct (early_termination_write callbacks
              (uint8 (Z.land (enabled_callback (module s))
                             (registered_callback (module s)))) s Hdir)
    as (s1 & Hm & _ & Hr & Ha & ->).
  exists s1. repeat (split; [assumption|]).
  unfold invoke_if. rewrite callback_mask_on by assumption.
  now destruct (callback_on _ _ _).
Qed.

(** The data ready branch ending a transfer in direction Read: the buffer
    is exhausted, or the master answered NACK with bytes left. *)
Lemma data_ready_normal_end (callbacks : callback_table) (s : machine) :
  data_ready_event hdr (i2c_hw s) ->
  transfer_direction (module s) = I2C_TRANSFER_READ ->
  buffer_remaining (module s) <= 0 \/
  (buffer_remaining (module s) < buffer_length (module s) /\
   flag_set (STATUS (i2c_hw s)) (SERCOM_I2CS_STATUS_RXNACK hdr) = true) ->
  exists s1,
    module s1 = set_status STATUS_OK
                  (set_buffer_length 0 (set_buffer_remaining 0 (module s))) /\
    ram s1 = ram s /\
    accesses s1 = accesses s ++ [CTRLB_ackact false;
                                 CTRLB_or (SERCOM_I2CS_CTRLB_CMD hdr 2);
                                 INTENCLR_write (SERCOM_I2CS_INTFLAG_DRDY hdr)] /\
    _i2c_slave_interrupt_handler hdr callbacks s = (s1, []).
Proof.
  intros Hev Hdir Hend.
  rewrite (handler_data_ready hdr callbacks s Hev).
  unfold data_ready. cbv zeta.
  assert (Hc : (buffer_remaining (module s) <=? 0)
               || (direction_eqb (transfer_direction (module s))
                     I2C_TRANSFER_READ
                   && (buffer_remaining (module s) <? buffer_length (module s))
                   && flag_set (STATUS (i2c_hw s))
                        (SERCOM_I2CS_STATUS_RXNACK hdr)) = true).
  { destruct Hend as [Hrem | [Hlt Hnack]].
    - apply orb_true_iff. left. now apply Z.leb_le.
    - apply orb_true_iff. right. rewrite Hdir, Hnack. cbn.
      rewrite andb_true_r. now apply Z.ltb_lt. }
  rewrite Hc.
  destruct (early_termination_read callbacks
              (uint8 (Z.land (enabled_callback (module s))
                             (registered_callback (module s)))) s Hdir)
    as (s1 & Hm & _ & Hr & Ha & ->).
  exists s1. now repeat (split; [assumption|]).
Qed.

(** C4: a data ready event in direction Write with [buffer_remaining = 0]
    zeroes both job counters, sets [status] to [STATUS_ERR_OVERFLOW] and
    invokes the ERROR callback once, when it is enabled and registered.
    The DATA register is not read and the memory is not written: the
    machine [s1] the callback receives has the memory of [s] and two more
    accesses, both to CTRLB. *)
Theorem data_ready_overflow (callbacks : callback_table) (s : machine) :
  data_ready_event hdr (i2c_hw s) ->
  masks_in_range (module s) ->
  transfer_direction (module s) = I2C_TRANSFER_WRITE ->
  buffer_remaining (module s) = 0 ->
  exists s1,
    buffer_length (module s1) = 0 /\
    buffer_remaining (module s1) = 0 /\
    status (module s1) = STATUS_ERR_OVERFLOW /\
    ram s1 = ram s /\
    accesses s1 = accesses s ++ [CTRLB_ackact false;
                                 CTRLB_or (SERCOM_I2CS_CTRLB_CMD hdr 2)] /\
    _i2c_slave_interrupt_handler hdr callbacks s
    = if callback_on hdr (module s) I2C_SLAVE_CALLBACK_ERROR
      then (callbacks I2C_SLAVE_CALLBACK_ERROR s1, [I2C_SLAVE_CALLBACK_ERROR])
      else (s1, []).
Proof.
  intros Hev Hmask Hdir Hrem.
  destruct (data_ready_overflow_step callbacks s Hev Hmask Hdir)
    as (s1 & Hm & Hr & Ha & Hrun); [lia|].
  exists s1. rewrite Hm. now repeat (split; [reflexivity || assumption|]).
Qed.

End EarlyTermination.

(** Witness of C4: one byte more than the buffer holds. *)
Lemma data_ready_overflow_witness :
  exists s1,
    status (module s1) = STATUS_ERR_OVERFLOW /\
    ram s1 = sample_ram /\
    _i2c_slave_interrupt_handler samr34 idle_callbacks
      (with_hw (drdy_regs 7) (sample_session 2 0 I2C_TRANSFER_WRITE STATUS_BUSY))
    = (s1, [I2C_SLAVE_CALLBACK_ERROR]).
Proof.
  destruct (data_ready_overflow samr34 idle_callbacks
              (with_hw (drdy_regs 7)
                 (sample_session 2 0 I2C_TRANSFER_WRITE STATUS_BUSY)))
    as (s1 & _ & _ & Hst & Hram & _ & Hrun).
  - repeat split; reflexivity.
  - split; cbn; lia.
  - reflexivity.
  - reflexivity.
  - exists s1. repeat (split; [assumption|]). exact Hrun.
Defined.

Section DataReadySource.

Variable hdr : header_constants.



End DataReadySource.


(** ** Address match *)

Section AddressMatch.

Variable hdr : header_constants.

Lemma invoke_if_callbacks (callbacks : callback_table) (mask : Z)
  (k0 k : i2c_slave_callback) (s : machine) :
  In k (snd (invoke_if hdr callbacks mask k0 s)) -> k = k0.
Proof.
  unfold invoke_if, invoke, skip. destruct (flag_set _ _); cbn; intuition.
Qed.

(** The callbacks of the new address phase are the last-transfer error and
    the two requests. *)
Lemma address_phase_callbacks (callbacks : callback_table) (mask : Z)
  (s : machine) (k : i2c_slave_callback) :
  In k (snd (address_phase hdr callbacks mask s)) ->
  k = I2C_SLAVE_CALLBACK_ERROR_LAST_TRANSFER \/
  k = I2C_SLAVE_CALLBACK_READ_REQUEST \/
  k = I2C_SLAVE_CALLBACK_WRITE_REQUEST.
Proof.
  unfold address_phase. rewrite !seq_snd, !in_app_iff. cbn [exec snd].
  intros [H | [H | [[] | []]]].
  - left. revert H. unfold last_transfer_error.
    destruct (flag_set _ _); [|intros []].
    rewrite seq_snd. cbn [exec snd app fst].
    apply invoke_if_callbacks.
  - right. revert H. unfold address_response.
    set (s1 := fst (last_transfer_error hdr callbacks mask s)).
    destruct (nack_on_address (module s1)); [intros []|].
    destruct (flag_set _ _); rewrite !seq_snd, !in_app_iff;
      cbn [exec snd app fst]; unfold ack_if_buffer;
      (intros [[] | [H | H]];
       [ apply invoke_if_callbacks in H; auto
       | destruct (buffer_length _ =? 0) in H; destruct H ]).
Qed.

(** The repeated start check of an address match, direction Write. *)
Lemma address_match_write (callbacks : callback_table) (s : machine) :
  address_match_event hdr (i2c_hw s) ->
  transfer_direction (module s) = I2C_TRANSFER_WRITE ->
  let mask := uint8 (Z.land (enabled_callback (module s))
                            (registered_callback (module s))) in
  _i2c_slave_interrupt_handler hdr callbacks s
  = if buffer_length (module s) =? buffer_remaining (module s)
    then address_phase hdr callbacks mask s
    else (exec (on_module transfer_done) ;;
          invoke_if hdr callbacks mask I2C_SLAVE_CALLBACK_READ_COMPLETE ;;
          address_phase hdr callbacks mask)%step s.
Proof.
  intros Hev Hdir mask.
  rewrite (handler_address_match hdr callbacks s Hev). fold mask.
  unfold address_match.
  destruct (buffer_length (module s) =? buffer_remaining (module s)) eqn:Heq.
  - apply seq_pure_l. unfold repeated_start_completion. cbv zeta.
    now rewrite Heq.
  - rewrite <- seq_assoc. unfold seq at 1 3.
    unfold repeated_start_completion at 1. cbv zeta.
    rewrite Heq, Hdir. reflexivity.
Qed.

(** C5: on an address match with [buffer_length <> buffer_remaining] in
    direction Write, the handler first resets [status] to [STATUS_OK] and
    both job counters to 0 and invokes READ_COMPLETE (when enabled and
    registered), before any hardware access; the error check, the NACK
    policy and the new direction ([address_phase]) run on the machine the
    callback returns, and invoke no READ_COMPLETE of their own. *)
Theorem repeated_start_completes_first (callbacks : callback_table)
  (s : machine) :
  address_match_event hdr (i2c_hw s) ->
  masks_in_range (module s) ->
  buffer_length (module s) <> buffer_remaining (module s) ->
  transfer_direction (module s) = I2C_TRANSFER_WRITE ->
  let mask := uint8 (Z.land (enabled_callback (module s))
                            (registered_callback (module s))) in
  exists s1,
    status (module s1) = STATUS_OK /\
    buffer_length (module s1) = 0 /\
    buffer_remaining (module s1) = 0 /\
    transfer_direction (module s1) = I2C_TRANSFER_WRITE /\
    i2c_hw s1 = i2c_hw s /\ ram s1 = ram s /\ accesses s1 = accesses s /\
    let first :=
      if callback_on hdr (module s) I2C_SLAVE_CALLBACK_READ_COMPLETE
      then (callbacks I2C_SLAVE_CALLBACK_READ_COMPLETE s1,
            [I2C_SLAVE_CALLBACK_READ_COMPLETE])
      else (s1, []) in
    let rest := address_phase hdr callbacks mask (fst first) in
    _i2c_slave_interrupt_handler hdr callbacks s
    = (fst rest, snd first ++ snd rest) /\
    ~ In I2C_SLAVE_CALLBACK_READ_COMPLETE (snd rest) /\
    count_occ callback_eq_dec
      (snd (_i2c_slave_interrupt_handler hdr callbacks s))
      I2C_SLAVE_CALLBACK_READ_COMPLETE
    = if callback_on hdr (module s) I2C_SLAVE_CALLBACK_READ_COMPLETE
      then 1%nat else 0%nat.
Proof.
  intros Hev Hmask Hne Hdir mask.
  exists (on_module transfer_done s).
  do 7 (split; [reflexivity || assumption|]).
  intros first rest.
  assert (Hrest : ~ In I2C_SLAVE_CALLBACK_READ_COMPLETE (snd rest)).
  { intros Hin. apply address_phase_callbacks in Hin.
    destruct Hin as [H | [H | H]]; discriminate H. }
  assert (Hrun : _i2c_slave_interrupt_handler hdr callbacks s
                 = (fst rest, snd first ++ snd rest)).
  { rewrite (address_match_write callbacks s Hev Hdir). fold mask.
    replace (buffer_length (module s) =? buffer_remaining (module s))
      with false by (symmetry; now apply Z.eqb_neq).
    rewrite seq_exec.
    assert (Hfirst : invoke_if hdr callbacks mask
                       I2C_SLAVE_CALLBACK_READ_COMPLETE
                       (on_module transfer_done s) = first).
    { unfold invoke_if, first, mask.
      rewrite (callback_mask_on hdr (module s)) by assumption.
      now destruct (callback_on _ _ _). }
    unfold seq. rewrite Hfirst. unfold rest.
    destruct first as [s2 l2]. cbn [fst snd].
    now destruct (address_phase hdr callbacks mask s2). }
  split; [assumption|]. split; [assumption|].
  rewrite Hrun. cbn [snd]. rewrite count_occ_app.
  rewrite (proj1 (count_occ_not_In callback_eq_dec _ _) Hrest).
  unfold first. destruct (callback_on _ _ _); reflexivity.
Qed.


End AddressMatch.

(** Witness of C5: a repeated start with one byte of three received. *)
Lemma repeated_start_completes_first_witness :
  count_occ callback_eq_dec
    (snd (_i2c_slave_interrupt_handler samr34 idle_callbacks
            (with_hw (amatch_regs 0)
               (sample_session 3 2 I2C_TRANSFER_WRITE STATUS_BUSY))))
    I2C_SLAVE_CALLBACK_READ_COMPLETE
  = 1%nat.
Proof.
  destruct (repeated_start_completes_first samr34 idle_callbacks
              (with_hw (amatch_regs 0)
                 (sample_session 3 2 I2C_TRANSFER_WRITE STATUS_BUSY)))
    as (s1 & _ & _ & _ & _ & _ & _ & _ & _ & _ & Hcount).
  - reflexivity.
  - split; cbn; lia.
  - cbn. lia.
  - reflexivity.
  - exact Hcount.
Defined.


(** ** Data ready: byte transfers *)

Section ByteTransfers.

Variable hdr : header_constants.

(** One byte received: the data ready branch in direction Write with room
    in the buffer. *)
Lemma data_ready_receives (callbacks : callback_table) (s : machine) :
  data_ready_event hdr (i2c_hw s) ->
  transfer_direction (module s) = I2C_TRANSFER_WRITE ->
  0 < buffer_remaining (module s) <= buffer_length (module s) ->
  _i2c_slave_interrupt_handler hdr callbacks s = (_i2c_slave_read s, []).
Proof.
  intros Hev Hdir [Hpos Hle].
  rewrite (handler_data_ready hdr callbacks s Hev).
  unfold data_ready. cbv zeta. rewrite Hdir. cbn [direction_eqb andb].
  replace (buffer_remaining (module s) <=? 0) with false
    by (symmetry; apply Z.leb_gt; lia).
  replace (0 <? buffer_length (module s)) with true
    by (symmetry; apply Z.ltb_lt; lia).
  replace (0 <? buffer_remaining (module s)) with true
    by (symmetry; apply Z.ltb_lt; lia).
  reflexivity.
Qed.

(** One byte sent: the data ready branch in direction Read with bytes
    left, the master not having answered NACK to a previous byte. *)
Lemma data_ready_sends (callbacks : callback_table) (s : machine) :
  data_ready_event hdr (i2c_hw s) ->
  transfer_direction (module s) = I2C_TRANSFER_READ ->
  0 < buffer_remaining (module s) <= buffer_length (module s) ->
  buffer_remaining (module s) = buffer_length (module s) \/
  flag_set (STATUS (i2c_hw s)) (SERCOM_I2CS_STATUS_RXNACK hdr) = false ->
  _i2c_slave_interrupt_handler hdr callbacks s = (_i2c_slave_write s, []).
Proof.
  intros Hev Hdir [Hpos Hle] Hack.
  rewrite (handler_data_ready hdr callbacks s Hev).
  unfold data_ready. cbv zeta. rewrite Hdir. cbn [direction_eqb andb].
  replace (buffer_remaining (module s) <=? 0) with false
    by (symmetry; apply Z.leb_gt; lia).
  replace ((buffer_remaining (module s) <? buffer_length (module s))
           && flag_set (STATUS (i2c_hw s)) (SERCOM_I2CS_STATUS_RXNACK hdr))
    with false.
  2:{ symmetry. destruct Hack as [Heq | Hnack].
      - apply andb_false_iff. left. apply Z.ltb_ge. lia.
      - apply andb_false_iff. now right. }
  replace (0 <? buffer_length (module s)) with true
    by (symmetry; apply Z.ltb_lt; lia).
  replace (0 <? buffer_remaining (module s)) with true
    by (symmetry; apply Z.ltb_lt; lia).
  reflexivity.
Qed.

(** [k] data ready events on a session in direction Write with at least
    [k] bytes of room. *)
Lemma receive_bytes (callbacks : callback_table) (events : list SercomI2cs) :
  Forall (data_ready_event hdr) events ->
  forall s,
    transfer_direction (module s) = I2C_TRANSFER_WRITE ->
    Z.of_nat (length events) <= buffer_remaining (module s) ->
    buffer_remaining (module s) <= buffer_length (module s) ->
    buffer_remaining (module s) < 65536 ->
    let s' := fst (interrupts hdr callbacks events s) in
    snd (interrupts hdr callbacks events s) = [] /\
    buffer (module s') = buffer (module s) + Z.of_nat (length events) /\
    buffer_remaining (module s')
    = buffer_remaining (module s) - Z.of_nat (length events) /\
    buffer_length (module s') = buffer_length (module s) /\
    status (module s') = status (module s) /\
    transfer_direction (module s') = I2C_TRANSFER_WRITE /\
    enabled_callback (module s') = enabled_callback (module s) /\
    registered_callback (module s') = registered_callback (module s) /\
    (forall i regs,
       nth_error events i = Some regs ->
       ram s' (buffer (module s) + Z.of_nat i) = DATA regs) /\
    (forall a,
       a < buffer (module s) \/
       buffer (module s) + Z.of_nat (length events) <= a ->
       ram s' a = ram s a) /\
    accesses s'
    = accesses s ++ map (fun regs => DATA_read (DATA regs)) events.
Proof.
  intros Hall.
  induction Hall as [|regs events Hregs _ IH]; intros s Hdir Hk Hle Hmax.
  - cbn. rewrite Z.add_0_r, Z.sub_0_r, app_nil_r.
    repeat (split; [reflexivity || assumption|]).
    split; [|now split].
    intros [|i] regs H; discriminate H.
  - cbn [length] in Hk. rewrite Nat2Z.inj_succ in Hk.
    cbv zeta. cbn [interrupts]. rewrite seq_fst, seq_snd. unfold interrupt.
    rewrite (data_ready_receives callbacks (with_hw regs s) Hregs Hdir)
      by (cbn; lia).
    cbn [fst snd app].
    set (s1 := _i2c_slave_read (with_hw regs s)).
    assert (Hrem1 : buffer_remaining (module s1)
                    = buffer_remaining (module s) - 1).
    { cbn. unfold uint16. apply Z.mod_small. lia. }
    assert (Hbuf1 : buffer (module s1) = buffer (module s) + 1) by reflexivity.
    assert (Hlen1 : buffer_length (module s1) = buffer_length (module s))
      by reflexivity.
    specialize (IH s1).
    cbv zeta in IH.
    destruct IH as (Hl & Hb & Hr & Hn & Hst & Hd & He & Hrg & Hin & Hout & Hacc);
      [assumption | lia | lia | lia |].
    rewrite Hl, Hb, Hr, Hn, Hst, Hd, He, Hrg, Hacc, Hrem1, Hbuf1.
    cbn [length map]. rewrite Nat2Z.inj_succ.
    split; [reflexivity|]. split; [lia|]. split; [lia|].
    do 5 (split; [reflexivity|]).
    split; [|split].
    + intros [|i] regs' Hnth.
      * cbn in Hnth. injection Hnth as <-.
        rewrite Z.add_0_r, Hout by (rewrite Hbuf1; lia).
        cbn. now rewrite Z.eqb_refl.
      * cbn in Hnth. rewrite <- (Hin i regs' Hnth), Hbuf1.
        f_equal. lia.
    + intros a Ha. rewrite Hout by (rewrite Hbuf1; lia).
      cbn. destruct (Z.eqb_spec a (buffer (module s))); [lia|reflexivity].
    + cbn. now rewrite <- app_assoc.
Qed.

End ByteTransfers.

Section WriteDirectionJob.

Variable hdr : header_constants.

(** C3, as the code has it: after a read job of [data_length] N is
    accepted in direction Write (the master writes), each of the first N
    data ready events copies the byte of the DATA register to the next
    buffer position, in address order, and decrements [buffer_remaining]
    by one; no callback is invoked.  When [buffer_remaining] reaches 0 the
    status is still [STATUS_BUSY]: the job is marked [STATUS_OK] by the
    stop condition or the repeated start, not here.  No further byte is
    consumed into the buffer: one more data ready event reads no DATA,
    writes no memory and ends in [STATUS_ERR_OVERFLOW]. *)
Theorem read_job_receives_bytes_in_order (callbacks : callback_table)
  (packet : i2c_slave_packet) (s0 : machine) (events : list SercomI2cs) :
  buffer_remaining (module s0) = 0 ->
  transfer_direction (module s0) = I2C_TRANSFER_WRITE ->
  masks_in_range (module s0) ->
  Forall (data_ready_event hdr) events ->
  Z.of_nat (length events) <= data_length packet < 65536 ->
  let s := snd (i2c_slave_read_packet_job hdr packet s0) in
  let s' := fst (interrupts hdr callbacks events s) in
  fst (i2c_slave_read_packet_job hdr packet s0) = STATUS_OK /\
  snd (interrupts hdr callbacks events s) = [] /\
  buffer (module s') = data packet + Z.of_nat (length events) /\
  buffer_remaining (module s') = data_length packet - Z.of_nat (length events) /\
  buffer_length (module s') = data_length packet /\
  status (module s') = STATUS_BUSY /\
  (forall i regs,
     nth_error events i = Some regs ->
     ram s' (data packet + Z.of_nat i) = DATA regs) /\
  (forall a,
     a < data packet \/ data packet + Z.of_nat (length events) <= a ->
     ram s' a = ram s0 a) /\
  accesses s' = accesses s ++ map (fun regs => DATA_read (DATA regs)) events /\
  (Z.of_nat (length events) = data_length packet ->
   forall regs,
     data_ready_event hdr regs ->
     exists s1,
       ram s1 = ram s' /\
       accesses s1 = accesses s' ++ [CTRLB_ackact false;
                                     CTRLB_or (SERCOM_I2CS_CTRLB_CMD hdr 2)] /\
       buffer (module s1) = buffer (module s') /\
       status (module s1) = STATUS_ERR_OVERFLOW /\
       interrupt hdr callbacks regs s'
       = if callback_on hdr (module s0) I2C_SLAVE_CALLBACK_ERROR
         then (callbacks I2C_SLAVE_CALLBACK_ERROR s1,
               [I2C_SLAVE_CALLBACK_ERROR])
         else (s1, [])).
Proof.
  intros Hidle Hdir Hmask Hall Hlen s s'.
  assert (Hs : s = save_packet hdr packet s0).
  { unfold s, i2c_slave_read_packet_job. now rewrite Hidle. }
  assert (Hok : fst (i2c_slave_read_packet_job hdr packet s0) = STATUS_OK).
  { unfold i2c_slave_read_packet_job. now rewrite Hidle. }
  destruct (receive_bytes hdr callbacks events Hall s)
    as (Hl & Hb & Hr & Hn & Hst & Hd & He & Hrg & Hin & Hout & Hacc);
    try (rewrite Hs; cbn; (assumption || lia)).
  fold s' in Hb, Hr, Hn, Hst, Hd, He, Hrg, Hin, Hout, Hacc.
  assert (Hbuf : buffer (module s) = data packet) by now rewrite Hs.
  assert (Hrem : buffer_remaining (module s) = data_length packet)
    by now rewrite Hs.
  rewrite Hbuf in Hb, Hin, Hout. rewrite Hrem in Hr.
  split; [assumption|]. split; [assumption|]. split; [assumption|].
  split; [assumption|]. split; [now rewrite Hn, Hs|].
  split; [now rewrite Hst, Hs|]. split; [assumption|].
  split; [intros a Ha; rewrite (Hout a Ha); now rewrite Hs|].
  split; [assumption|].
  intros Hfull regs Hregs. unfold interrupt.
  destruct (data_ready_overflow_step hdr callbacks (with_hw regs s'))
    as (s1 & Hm1 & Hr1 & Ha1 & Hrun); try assumption.
  { unfold masks_in_range. cbn [module with_hw]. rewrite He, Hrg, Hs. exact Hmask. }
  { cbn [module with_hw]. lia. }
  exists s1. rewrite Hm1. cbn [module with_hw] in Hrun |- *.
  split; [assumption|]. split; [assumption|].
  split; [reflexivity|]. split; [reflexivity|].
  rewrite Hrun. unfold callback_on. now rewrite He, Hrg, Hs.
Qed.

End WriteDirectionJob.

(** Witness of C3: two bytes received by a read job of two bytes. *)
Lemma read_job_receives_bytes_in_order_witness :
  ram (fst (interrupts samr34 idle_callbacks [drdy_regs 7; drdy_regs 8]
              (snd (i2c_slave_read_packet_job samr34 (sample_packet 2)
                      (sample_session 0 0 I2C_TRANSFER_WRITE STATUS_OK)))))
    (data (sample_packet 2) + Z.of_nat 1)
  = DATA (drdy_regs 8).
Proof.
  apply (read_job_receives_bytes_in_order samr34 idle_callbacks
           (sample_packet 2)
           (sample_session 0 0 I2C_TRANSFER_WRITE STATUS_OK)
           [drdy_regs 7; drdy_regs 8]).
  - reflexivity.
  - reflexivity.
  - split; cbn; lia.
  - repeat constructor.
  - cbn. lia.
  - reflexivity.
Defined.

(** Counterexample to C3 as stated: a read job of one byte in direction
    Write, one data ready event.  The byte is in the buffer and
    [buffer_remaining] is 0, but the status is [STATUS_BUSY], not
    [STATUS_OK]. *)
Lemma exhausted_read_job_is_not_marked_ok :
  let s := snd (i2c_slave_read_packet_job samr34 (sample_packet 1)
                  (sample_session 0 0 I2C_TRANSFER_WRITE STATUS_OK)) in
  let s' := fst (interrupts samr34 idle_callbacks [drdy_regs 7] s) in
  ram s' 100 = 7 /\
  buffer_remaining (module s') = 0 /\
  status (module s') = STATUS_BUSY /\
  status (module s') <> STATUS_OK.
Proof.
  cbv zeta. repeat split; try reflexivity. discriminate.
Qed.

Section ReadDirectionJob.

Variable hdr : header_constants.

(** C8, as the code has it: a write job of [data_length] 3 is accepted,
    the direction recorded at the address match being Read.  Each of three
    data ready events (the master acknowledging the bytes before) sends the
    next byte of the buffer, in address order, to the DATA register;
    nothing is written to the buffer.  The stop condition that follows
    invokes WRITE_COMPLETE (enabled and registered) with [status] OK and
    both job counters 0. *)
Theorem write_job_of_three_completes (callbacks : callback_table)
  (packet : i2c_slave_packet) (s0 : machine) (e1 e2 e3 stop : SercomI2cs) :
  buffer_remaining (module s0) = 0 ->
  transfer_direction (module s0) = I2C_TRANSFER_READ ->
  masks_in_range (module s0) ->
  callback_on hdr (module s0) I2C_SLAVE_CALLBACK_WRITE_COMPLETE = true ->
  data_length packet = 3 ->
  data_ready_event hdr e1 ->
  data_ready_event hdr e2 ->
  data_ready_event hdr e3 ->
  flag_set (STATUS e2) (SERCOM_I2CS_STATUS_RXNACK hdr) = false ->
  flag_set (STATUS e3) (SERCOM_I2CS_STATUS_RXNACK hdr) = false ->
  stop_event hdr stop ->
  let s := snd (i2c_slave_write_packet_job hdr packet s0) in
  let s3 := fst (interrupts hdr callbacks [e1; e2; e3] s) in
  fst (i2c_slave_write_packet_job hdr packet s0) = STATUS_OK /\
  snd (interrupts hdr callbacks [e1; e2; e3] s) = [] /\
  accesses s3 = accesses s ++ [DATA_write (ram s0 (data packet));
                               DATA_write (ram s0 (data packet + 1));
                               DATA_write (ram s0 (data packet + 1 + 1))] /\
  (forall a, ram s3 a = ram s0 a) /\
  buffer_remaining (module s3) = 0 /\
  exists s4,
    status (module s4) = STATUS_OK /\
    buffer_length (module s4) = 0 /\
    buffer_remaining (module s4) = 0 /\
    interrupt hdr callbacks stop s3
    = (callbacks I2C_SLAVE_CALLBACK_WRITE_COMPLETE s4,
       [I2C_SLAVE_CALLBACK_WRITE_COMPLETE]).
Proof.
  intros Hidle Hdir Hmask Hon Hlen H1 H2 H3 Hack2 Hack3 Hstop s s3.
  assert (Hs : s = save_packet hdr packet s0).
  { unfold s, i2c_slave_write_packet_job. now rewrite Hidle. }
  assert (Hok : fst (i2c_slave_write_packet_job hdr packet s0) = STATUS_OK).
  { unfold i2c_slave_write_packet_job. now rewrite Hidle. }
  assert (Hrun : interrupts hdr callbacks [e1; e2; e3] s
                 = (_i2c_slave_write
                      (with_hw e3
                         (_i2c_slave_write
                            (with_hw e2 (_i2c_slave_write (with_hw e1 s)))))
                    , [])).
  { cbn [interrupts]. unfold interrupt at 1.
    erewrite seq_pure_l.
    2:{ apply data_ready_sends; try assumption.
        - now rewrite Hs.
        - rewrite Hs. cbn. lia.
        - left. now rewrite Hs. }
    unfold interrupt at 1.
    erewrite seq_pure_l.
    2:{ apply data_ready_sends; try assumption.
        - now rewrite Hs.
        - rewrite Hs. cbn. rewrite Hlen. cbn. lia.
        - now right. }
    unfold interrupt at 1.
    erewrite seq_pure_l.
    2:{ apply data_ready_sends; try assumption.
        - now rewrite Hs.
        - rewrite Hs. cbn. rewrite Hlen. cbn. lia.
        - now right. }
    reflexivity. }
  assert (Hs3 : s3 = _i2c_slave_write
                       (with_hw e3
                          (_i2c_slave_write
                             (with_hw e2 (_i2c_slave_write (with_hw e1 s))))))
    by (unfold s3; now rewrite Hrun).
  split; [assumption|]. split; [now rewrite Hrun|].
  split; [rewrite Hs3, Hs; cbn; now rewrite <- !app_assoc|].
  split; [intros a; now rewrite Hs3, Hs|].
  split; [rewrite Hs3, Hs; cbn; now rewrite Hlen|].
  destruct (stop_event_completion hdr callbacks (with_hw stop s3))
    as (s4 & Hm4 & _ & Hread); try assumption.
  - rewrite Hs3, Hs. exact Hmask.
  - rewrite Hs3, Hs. discriminate.
  - rewrite Hs3, Hs. discriminate.
  - exists s4. rewrite Hm4. do 3 (split; [reflexivity|]).
    unfold interrupt. rewrite Hread.
    replace (transfer_direction (module (with_hw stop s3)))
      with I2C_TRANSFER_READ by (now rewrite Hs3, Hs).
    replace (callback_on hdr (module (with_hw stop s3))
               I2C_SLAVE_CALLBACK_WRITE_COMPLETE) with true; [reflexivity|].
    rewrite <- Hon. now rewrite Hs3, Hs.
Qed.

End ReadDirectionJob.

(** Witness of C8: the scenario on the sample buffer 10, 11, 12. *)
Lemma write_job_of_three_completes_witness :
  accesses
    (fst (interrupts samr34 idle_callbacks
            [drdy_regs 7; drdy_regs 8; drdy_regs 9]
            (snd (i2c_slave_write_packet_job samr34 (sample_packet 3)
                    (sample_session 0 0 I2C_TRANSFER_READ STATUS_OK)))))
  = [INTENSET_write 7; DATA_write 10; DATA_write 11; DATA_write 12].
Proof.
  apply (write_job_of_three_completes samr34 idle_callbacks (sample_packet 3)
           (sample_session 0 0 I2C_TRANSFER_READ STATUS_OK)
           (drdy_regs 7) (drdy_regs 8) (drdy_regs 9) prec_regs).
  - reflexivity.
  - reflexivity.
  - split; cbn; lia.
  - reflexivity.
  - reflexivity.
  - repeat split; reflexivity.
  - repeat split; reflexivity.
  - repeat split; reflexivity.
  - reflexivity.
  - reflexivity.
  - split; reflexivity.
Defined.

(** Counterexample to C8 as stated: in the scenario the data ready events
    deliver nothing to the buffer.  With 7, 8, 9 in the DATA register at
    the three events, the buffer still holds 10, 11, 12 and the DATA
    register was never read: the three bytes of the buffer were written to
    it. *)
Lemma write_job_events_do_not_fill_the_buffer :
  let s := snd (i2c_slave_write_packet_job samr34 (sample_packet 3)
                  (sample_session 0 0 I2C_TRANSFER_READ STATUS_OK)) in
  let s3 := fst (interrupts samr34 idle_callbacks
                   [drdy_regs 7; drdy_regs 8; drdy_regs 9] s) in
  map (ram s3) [100; 101; 102] = [10; 11; 12] /\
  map (ram s3) [100; 101; 102] <> [7; 8; 9] /\
  accesses s3 = accesses s ++ [DATA_write 10; DATA_write 11; DATA_write 12] /\
  ~ In (DATA_read 7) (accesses s3).
Proof.
  cbv zeta. split; [reflexivity|]. split; [discriminate|].
  split; [reflexivity|].
  cbn. intros [H | [H | [H | [H | []]]]]; discriminate H.
Qed.

(** ** The invariant of the job counters *)

Lemma preserves_exec (P : machine -> Prop) (f : machine -> machine) :
  (forall s, P s -> P (f s)) -> preserves P (exec f).
Proof. intros Hf s Hs. now apply Hf. Qed.

Lemma preserves_seq (P : machine -> Prop) (f g : step) :
  preserves P f -> preserves P g -> preserves P (seq f g).
Proof.
  intros Hf Hg s Hs. rewrite seq_fst. now apply Hg, Hf.
Qed.

Section CountersInvariant.

Variable hdr : header_constants.

(** Machines with the same session fields agree on the invariant. *)
Lemma counters_ordered_module (s s' : machine) :
  module s' = module s -> counters_ordered s -> counters_ordered s'.
Proof. unfold counters_ordered. now intros ->. Qed.

Lemma counters_ordered_done (s : machine) :
  counters_ordered (on_module transfer_done s).
Proof. unfold counters_ordered. cbn. lia. Qed.

Lemma save_packet_ordered (packet : i2c_slave_packet) (s : machine) :
  counters_ordered (save_packet hdr packet s).
Proof. unfold counters_ordered. cbn. lia. Qed.

(** Every call of the control API keeps the invariant. *)
Lemma control_api_call_ordered (s s' : machine) :
  control_api_call hdr s s' -> counters_ordered s -> counters_ordered s'.
Proof.
  intros Hcall Hs.
  destruct Hcall as [packet s | packet s | s | s | k s | k s | s s' Hm].
  - unfold i2c_slave_read_packet_job.
    destruct (0 <? buffer_remaining (module s));
      [assumption | apply save_packet_ordered].
  - unfold i2c_slave_write_packet_job.
    destruct (0 <? buffer_remaining (module s));
      [assumption | apply save_packet_ordered].
  - exact Hs.
  - exact Hs.
  - exact Hs.
  - exact Hs.
  - now apply (counters_ordered_module s).
Qed.

Lemma control_api_calls_ordered (s s' : machine) :
  control_api_calls hdr s s' -> counters_ordered s -> counters_ordered s'.
Proof.
  induction 1 as [s | s s1 s2 Hcall _ IH]; intros Hs.
  - exact Hs.
  - apply IH. now apply (control_api_call_ordered s).
Qed.

Section Handler.

Variable callbacks : callback_table.
Hypothesis callbacks_api : uses_control_api hdr callbacks.
Variable callback_mask : Z.

Lemma invoke_ordered (k : i2c_slave_callback) :
  preserves counters_ordered (invoke callbacks k).
Proof.
  intros s Hs. cbn.
  apply (control_api_calls_ordered s); [apply callbacks_api | exact Hs].
Qed.

Lemma invoke_if_ordered (k : i2c_slave_callback) :
  preserves counters_ordered (invoke_if hdr callbacks callback_mask k).
Proof.
  intros s Hs. unfold invoke_if.
  destruct (flag_set _ _); [now apply invoke_ordered | exact Hs].
Qed.

Lemma completion_ordered (k : i2c_slave_callback) :
  preserves counters_ordered
    (exec (on_module transfer_done) ;;
     invoke_if hdr callbacks callback_mask k)%step.
Proof.
  apply preserves_seq; [|apply invoke_if_ordered].
  intros s _. apply counters_ordered_done.
Qed.

Lemma repeated_start_completion_ordered :
  preserves counters_ordered
    (repeated_start_completion hdr callbacks callback_mask).
Proof.
  intros s Hs. unfold repeated_start_completion. cbv zeta.
  destruct (_ && _); [now apply completion_ordered|].
  destruct (_ && _); [now apply completion_ordered | exact Hs].
Qed.

Lemma address_phase_ordered :
  preserves counters_ordered (address_phase hdr callbacks callback_mask).
Proof.
  unfold address_phase.
  apply preserves_seq; [|apply preserves_seq; [|apply preserves_seq]].
  - intros s Hs. unfold last_transfer_error.
    destruct (flag_set _ _); [|exact Hs].
    revert s Hs. apply preserves_seq;
      [now apply preserves_exec | apply invoke_if_ordered].
  - assert (Hack : preserves counters_ordered ack_if_buffer).
    { intros s Hs. unfold ack_if_buffer.
      destruct (buffer_length (module s) =? 0); exact Hs. }
    intros s Hs. unfold address_response.
    destruct (nack_on_address (module s)); [exact Hs|].
    destruct (flag_set _ _); revert s Hs;
      (apply preserves_seq;
       [ now apply preserves_exec
       | apply preserves_seq; [apply invoke_if_ordered | exact Hack] ]).
  - now apply preserves_exec.
  - now apply preserves_exec.
Qed.

Lemma stop_condition_ordered :
  preserves counters_ordered (stop_condition hdr callbacks callback_mask).
Proof.
  unfold stop_condition. apply preserves_seq.
  - unfold stop_disable_interrupts.
    apply preserves_seq; [now apply preserves_exec|].
    apply preserves_seq; [now apply preserves_exec|].
    intros s Hs. destruct (negb _); exact Hs.
  - intros s Hs. unfold stop_completion. destruct (negb _); [|exact Hs].
    rewrite seq_fst. cbn [exec fst].
    unfold stop_callback.
    destruct (_ && _); [apply invoke_ordered, counters_ordered_done|].
    destruct (_ && _); [apply invoke_ordered, counters_ordered_done|].
    apply counters_ordered_done.
Qed.

Lemma early_termination_ordered :
  preserves counters_ordered (early_termination hdr callbacks callback_mask).
Proof.
  unfold early_termination. apply preserves_seq.
  - intros s _. unfold counters_ordered. cbn. lia.
  - intros s Hs. destruct (direction_eqb _ _); revert s Hs.
    + repeat (apply preserves_seq; [now apply preserves_exec|]).
      apply invoke_if_ordered.
    + repeat (apply preserves_seq; [now apply preserves_exec|]).
      now apply preserves_exec.
Qed.

(** The decrement is taken only on a positive [buffer_remaining], where
    it does not wrap around. *)
Lemma data_ready_ordered :
  preserves counters_ordered (data_ready hdr callbacks callback_mask).
Proof.
  intros s Hs. unfold data_ready. cbv zeta.
  destruct (_ || _); [now apply early_termination_ordered|].
  destruct (0 <? buffer_length (module s)); [|exact Hs].
  destruct (Z.ltb_spec 0 (buffer_remaining (module s))) as [Hpos|Hle];
    [|exact Hs].
  cbn [andb].
  assert (Hdec : uint16 (buffer_remaining (module s) - 1)
                 <= buffer_length (module s)).
  { unfold uint16.
    pose proof (Z.mod_le (buffer_remaining (module s) - 1) 65536).
    unfold counters_ordered in Hs. lia. }
  destruct (direction_eqb _ _); exact Hdec.
Qed.

End Handler.

Lemma handler_ordered (callbacks : callback_table) :
  uses_control_api hdr callbacks ->
  preserves counters_ordered (_i2c_slave_interrupt_handler hdr callbacks).
Proof.
  intros Hapi s Hs. unfold _i2c_slave_interrupt_handler. cbv zeta.
  set (mask := uint8 _).
  destruct (flag_set _ _).
  - exact (preserves_seq _ _ _
             (repeated_start_completion_ordered callbacks Hapi mask)
             (address_phase_ordered callbacks Hapi mask) s Hs).
  - destruct (flag_set _ _);
      [exact (stop_condition_ordered callbacks Hapi mask s Hs)|].
    destruct (flag_set _ _);
      [exact (data_ready_ordered callbacks Hapi mask s Hs) | exact Hs].
Qed.

(** C7: [buffer_remaining <= buffer_length] holds in every machine
    reachable from an idle session by job submissions (and the other
    control API calls) and interrupts, the callbacks touching the session
    through the control API only: a submission sets both fields to the
    same value, the handler decrements [buffer_remaining] only when it is
    positive or zeroes both fields together. *)
Theorem remaining_le_length (s : machine) :
  reachable hdr s ->
  buffer_remaining (module s) <= buffer_length (module s).
Proof.
  induction 1 as [s Hrem Hlen | s s' _ IH Hcall | callbacks regs s _ IH Hapi].
  - lia.
  - now apply (control_api_call_ordered s s').
  - unfold interrupt. now apply handler_ordered.
Qed.

End CountersInvariant.

(** The sample callbacks use the control API only. *)
Lemma sample_callbacks_api : uses_control_api samr34 sample_callbacks.
Proof.
  intros k s. destruct k; try apply no_call.
  eapply more_calls; [apply call_read_packet_job | apply no_call].
Qed.

(** Witness of C7: an address match whose WRITE_REQUEST callback submits a
    read job of 2 bytes, followed by one received byte. *)
Lemma remaining_le_length_witness :
  buffer_remaining
    (module (fst (interrupt samr34 sample_callbacks (drdy_regs 7)
                    (fst (interrupt samr34 sample_callbacks (amatch_regs 0)
                            (sample_session 0 0 I2C_TRANSFER_READ
                               STATUS_OK))))))
  <= buffer_length
       (module (fst (interrupt samr34 sample_callbacks (drdy_regs 7)
                       (fst (interrupt samr34 sample_callbacks (amatch_regs 0)
                               (sample_session 0 0 I2C_TRANSFER_READ
                                  STATUS_OK)))))).
Proof.
  apply (remaining_le_length samr34).
  apply reachable_interrupt; [|exact sample_callbacks_api].
  apply reachable_interrupt; [|exact sample_callbacks_api].
  apply reachable_idle; cbn; lia.
Defined.

(** * Further properties of the I2C slave driver *)

(** ** Masks of a fixed width *)

Ltac bitwise :=
  apply Z.bits_inj'; intros ?n ?Hn;
  rewrite ?Z.testbit_mod_pow2, ?Z.land_spec, ?Z.lor_spec, ?Z.lnot_spec,
    ?Z.testbit_mod_pow2, ?Z.land_spec, ?Z.lor_spec, ?Z.lnot_spec by lia.

Lemma mask_set_idempotent (w r b : Z) :
  0 <= w ->
  (Z.lor ((Z.lor r b) mod 2 ^ w) b) mod 2 ^ w = (Z.lor r b) mod 2 ^ w.
Proof.
  intros Hw. bitwise.
  destruct (n <? w), (Z.testbit r n), (Z.testbit b n); reflexivity.
Qed.

Lemma mask_clear_idempotent (w r b : Z) :
  0 <= w ->
  (Z.land ((Z.land r (Z.lnot b)) mod 2 ^ w) (Z.lnot b)) mod 2 ^ w
  = (Z.land r (Z.lnot b)) mod 2 ^ w.
Proof.
  intros Hw. bitwise.
  destruct (n <? w), (Z.testbit r n), (Z.testbit b n); reflexivity.
Qed.

Lemma mask_set_then_clear (w r b : Z) :
  0 <= w -> 0 <= r < 2 ^ w -> Z.land r b = 0 ->
  (Z.land ((Z.lor r b) mod 2 ^ w) (Z.lnot b)) mod 2 ^ w = r.
Proof.
  intros Hw Hr Hrb. bitwise.
  assert (Hdisj : Z.testbit r n && Z.testbit b n = false)
    by (rewrite <- Z.land_spec, Hrb; apply Z.bits_0).
  assert (Hhigh : (n <? w) = false -> Z.testbit r n = false).
  { intros Hge. apply Z.ltb_ge in Hge.
    rewrite <- (Z.mod_small r (2 ^ w)) by assumption.
    apply Z.mod_pow2_bits_high. lia. }
  destruct (n <? w), (Z.testbit r n), (Z.testbit b n);
    try reflexivity; try discriminate Hdisj; now discriminate Hhigh.
Qed.

Lemma mask_cleared_disjoint (w r b : Z) :
  0 <= w -> Z.land ((Z.land r (Z.lnot b)) mod 2 ^ w) b = 0.
Proof.
  intros Hw. bitwise. rewrite Z.bits_0.
  destruct (n <? w), (Z.testbit r n), (Z.testbit b n); reflexivity.
Qed.

Lemma mask_mod_range (w x : Z) : 0 <= w -> 0 <= x mod 2 ^ w < 2 ^ w.
Proof. intros Hw. apply Z.mod_pos_bound. apply Z.pow_pos_nonneg; lia. Qed.

Lemma uint8_range (x : Z) : 0 <= uint8 x < 256.
Proof. exact (mask_mod_range 8 x ltac:(lia)). Qed.

Lemma uint8_testbit (x n : Z) :
  0 <= n -> Z.testbit (uint8 x) n = (n <? 8) && Z.testbit x n.
Proof. intros Hn. unfold uint8. now apply (Z.testbit_mod_pow2 x 8 n). Qed.

Lemma in_range_testbit (x n : Z) :
  0 <= x < 256 -> 0 <= n -> Z.testbit x n = (n <? 8) && Z.testbit x n.
Proof.
  intros Hx Hn. destruct (Z.ltb_spec n 8); [reflexivity|].
  now apply uint8_testbit_high.
Qed.

(** ** Registration of callbacks *)

Section Registration.

Variable hdr : header_constants.

(** X1: [i2c_slave_register_callback] for a callback type numbered below 8
    sets the bit of that type in [registered_callback], keeps the mask a
    [uint8_t], leaves the bit of every type with another number as it was,
    and registering the same type again changes nothing. *)
Theorem register_callback_sets_its_bit (k : i2c_slave_callback) (s : machine) :
  0 <= callback_index hdr k < 8 ->
  0 <= registered_callback (module s) < 256 ->
  let s' := i2c_slave_register_callback hdr k s in
  flag_set (registered_callback (module s')) (callback_bit hdr k) = true /\
  0 <= registered_callback (module s') < 256 /\
  (forall k',
     callback_index hdr k' <> callback_index hdr k ->
     flag_set (registered_callback (module s')) (callback_bit hdr k')
     = flag_set (registered_callback (module s)) (callback_bit hdr k')) /\
  i2c_slave_register_callback hdr k s' = s'.
Proof.
  intros Hk Hr s'.
  assert (Hbit : forall i, 0 <= i ->
            Z.testbit (registered_callback (module s')) i
            = (i <? 8) && (Z.testbit (registered_callback (module s)) i
                           || (callback_index hdr k =? i))).
  { intros i Hi. unfold s', i2c_slave_register_callback.
    cbn [module on_module registered_callback set_registered_callback].
    rewrite uint8_testbit, Z.lor_spec by assumption.
    unfold callback_bit. rewrite Z.shiftl_1_l, Z.pow2_bits_eqb by lia.
    reflexivity. }
  split; [|split; [|split]].
  - unfold callback_bit at 1. rewrite flag_set_bit, Hbit by lia.
    rewrite Z.eqb_refl, orb_true_r.
    replace (0 <=? callback_index hdr k) with true
      by (symmetry; apply Z.leb_le; lia).
    replace (callback_index hdr k <? 8) with true
      by (symmetry; apply Z.ltb_lt; lia).
    reflexivity.
  - apply uint8_range.
  - intros k' Hne. unfold callback_bit. rewrite !flag_set_bit.
    destruct (Z.leb_spec 0 (callback_index hdr k')) as [Hi|Hi];
      [|reflexivity].
    cbn [andb]. rewrite Hbit by assumption.
    replace (callback_index hdr k =? callback_index hdr k') with false
      by (symmetry; apply Z.eqb_neq; congruence).
    rewrite orb_false_r. symmetry. now apply in_range_testbit.
  - unfold s', i2c_slave_register_callback, on_module,
      set_registered_callback.
    cbn [module registered_callback enabled_callback buffer_length
         buffer_remaining buffer transfer_direction nack_on_address status
         i2c_hw ram accesses].
    do 2 f_equal. apply (mask_set_idempotent 8). lia.
Qed.

Lemma unregister_callback_bit_clear (k : i2c_slave_callback) (s : machine) :
  flag_set (registered_callback
              (module (i2c_slave_unregister_callback hdr k s)))
    (callback_bit hdr k) = false.
Proof.
  unfold flag_set, i2c_slave_unregister_callback.
  cbn [module on_module registered_callback set_registered_callback].
  unfold uint8. change 256 with (2 ^ 8).
  now rewrite mask_cleared_disjoint by lia.
Qed.

(** X2: [i2c_slave_unregister_callback] clears the bit of its type in
    [registered_callback], whatever the session, so that the type is no
    longer enabled-and-registered; it keeps the mask a [uint8_t], leaves
    the bit of every type with another number as it was, and unregistering
    twice is the same as once. *)
Theorem unregister_callback_clears_its_bit (k : i2c_slave_callback)
  (s : machine) :
  0 <= registered_callback (module s) < 256 ->
  let s' := i2c_slave_unregister_callback hdr k s in
  flag_set (registered_callback (module s')) (callback_bit hdr k) = false /\
  callback_on hdr (module s') k = false /\
  0 <= registered_callback (module s') < 256 /\
  (forall k',
     callback_index hdr k' <> callback_index hdr k ->
     flag_set (registered_callback (module s')) (callback_bit hdr k')
     = flag_set (registered_callback (module s)) (callback_bit hdr k')) /\
  i2c_slave_unregister_callback hdr k s' = s'.
Proof.
  intros Hr s'.
  assert (Hclear : flag_set (registered_callback (module s'))
                     (callback_bit hdr k) = false).
  { apply unregister_callback_bit_clear. }
  split; [assumption|]. split; [|split; [|split]].
  - unfold callback_on. rewrite Hclear. apply andb_false_r.
  - apply uint8_range.
  - intros k' Hne. unfold callback_bit. rewrite !flag_set_bit.
    destruct (Z.leb_spec 0 (callback_index hdr k')) as [Hi|Hi];
      [|reflexivity].
    cbn [andb]. unfold s', i2c_slave_unregister_callback.
    cbn [module on_module registered_callback set_registered_callback].
    rewrite uint8_testbit, Z.land_spec by assumption. unfold callback_bit.
    destruct (Z.leb_spec 0 (callback_index hdr k)) as [Hk|Hk].
    + rewrite Z.lnot_spec, Z.shiftl_1_l, Z.pow2_bits_eqb by lia.
      replace (callback_index hdr k =? callback_index hdr k') with false
        by (symmetry; apply Z.eqb_neq; congruence).
      cbn [negb]. rewrite andb_true_r. symmetry.
      now apply in_range_testbit.
    + rewrite shiftl_1_negative by assumption.
      rewrite Z.lnot_spec, Z.bits_0 by assumption.
      cbn [negb]. rewrite andb_true_r. symmetry.
      now apply in_range_testbit.
  - unfold s', i2c_slave_unregister_callback, on_module,
      set_registered_callback.
    cbn [module registered_callback enabled_callback buffer_length
         buffer_remaining buffer transfer_direction nack_on_address status
         i2c_hw ram accesses].
    do 2 f_equal. apply (mask_clear_idempotent 8). lia.
Qed.

(** X3: registering a callback type that was not registered and
    unregistering it again gives back the session. *)
Theorem register_then_unregister (k : i2c_slave_callback) (s : machine) :
  0 <= registered_callback (module s) < 256 ->
  flag_set (registered_callback (module s)) (callback_bit hdr k) = false ->
  module (i2c_slave_unregister_callback hdr k
            (i2c_slave_register_callback hdr k s))
  = module s.
Proof.
  intros Hr Hclear. unfold flag_set in Hclear.
  apply negb_false_iff, Z.eqb_eq in Hclear.
  destruct s as [m hw mem log]. destruct m as [r e len rem buf dir nack st].
  unfold i2c_slave_unregister_callback, i2c_slave_register_callback,
    on_module, set_registered_callback.
  cbn [module registered_callback enabled_callback buffer_length
       buffer_remaining buffer transfer_direction nack_on_address status
       i2c_hw ram accesses] in *.
  f_equal. now apply (mask_set_then_clear 8).
Qed.

End Registration.

(** Witness of X1: registering ERROR on a session with the two completion
    callbacks registered. *)
Lemma register_callback_sets_its_bit_witness :
  flag_set
    (registered_callback
       (module (i2c_slave_register_callback samr34 I2C_SLAVE_CALLBACK_ERROR
                  (on_module (set_registered_callback 3)
                     (sample_session 0 0 I2C_TRANSFER_WRITE STATUS_OK)))))
    (callback_bit samr34 I2C_SLAVE_CALLBACK_ERROR)
  = true.
Proof.
  apply (register_callback_sets_its_bit samr34 I2C_SLAVE_CALLBACK_ERROR
           (on_module (set_registered_callback 3)
              (sample_session 0 0 I2C_TRANSFER_WRITE STATUS_OK))).
  - cbn. lia.
  - cbn. lia.
Defined.

(** Witness of X2: unregistering READ_COMPLETE. *)
Lemma unregister_callback_clears_its_bit_witness :
  callback_on samr34
    (module (i2c_slave_unregister_callback samr34
               I2C_SLAVE_CALLBACK_READ_COMPLETE
               (sample_session 0 0 I2C_TRANSFER_WRITE STATUS_OK)))
    I2C_SLAVE_CALLBACK_READ_COMPLETE
  = false.
Proof.
  apply (unregister_callback_clears_its_bit samr34
           I2C_SLAVE_CALLBACK_READ_COMPLETE
           (sample_session 0 0 I2C_TRANSFER_WRITE STATUS_OK)).
  cbn. lia.
Defined.

(** Witness of X3: ERROR registered and unregistered on a session that has
    the two completion callbacks only. *)
Lemma register_then_unregister_witness :
  module (i2c_slave_unregister_callback samr34 I2C_SLAVE_CALLBACK_ERROR
            (i2c_slave_register_callback samr34 I2C_SLAVE_CALLBACK_ERROR
               (on_module (set_registered_callback 3)
                  (sample_session 0 0 I2C_TRANSFER_WRITE STATUS_OK))))
  = module (on_module (set_registered_callback 3)
              (sample_session 0 0 I2C_TRANSFER_WRITE STATUS_OK)).
Proof.
  apply (register_then_unregister samr34 I2C_SLAVE_CALLBACK_ERROR
           (on_module (set_registered_callback 3)
              (sample_session 0 0 I2C_TRANSFER_WRITE STATUS_OK))).
  - cbn. lia.
  - reflexivity.
Defined.

(** ** Which callbacks the handler invokes *)

Section InvokedCallbacks.

Variable hdr : header_constants.
Variable callbacks : callback_table.
Variable mask : Z.

(** Below, the callbacks a step invokes have their bit in the mask the
    handler computed. *)

Lemma seq_gated (f g : step) :
  (forall s k, In k (snd (f s)) -> flag_set mask (callback_bit hdr k) = true) ->
  (forall s k, In k (snd (g s)) -> flag_set mask (callback_bit hdr k) = true) ->
  forall s k, In k (snd (seq f g s)) -> flag_set mask (callback_bit hdr k) = true.
Proof.
  intros Hf Hg s k. rewrite seq_snd, in_app_iff.
  intros [H | H]; [now apply (Hf s) | now apply (Hg (fst (f s)))].
Qed.

Lemma exec_gated (f : machine -> machine) :
  forall s k, In k (snd (exec f s)) -> flag_set mask (callback_bit hdr k) = true.
Proof. intros s k []. Qed.

Lemma skip_gated : forall s k, In k (snd (skip s)) -> flag_set mask (callback_bit hdr k) = true.
Proof. intros s k []. Qed.

Lemma invoke_if_gated (k0 : i2c_slave_callback) :
  forall s k, In k (snd (invoke_if hdr callbacks mask k0 s)) -> flag_set mask (callback_bit hdr k) = true.
Proof.
  intros s k. unfold invoke_if.
  destruct (flag_set mask (callback_bit hdr k0)) eqn:Hon.
  - intros [<- | []]. exact Hon.
  - intros [].
Qed.

Lemma completion_gated (k0 : i2c_slave_callback) :
  forall s k,
    In k (snd ((exec (on_module transfer_done) ;;
                invoke_if hdr callbacks mask k0)%step s)) ->
    flag_set mask (callback_bit hdr k) = true.
Proof. apply seq_gated; [apply exec_gated | apply invoke_if_gated]. Qed.

Lemma address_match_gated :
  forall s k, In k (snd (address_match hdr callbacks mask s)) -> flag_set mask (callback_bit hdr k) = true.
Proof.
  unfold address_match. apply seq_gated.
  - intros s k. unfold repeated_start_completion. cbv zeta.
    destruct (_ && _); [apply completion_gated|].
    destruct (_ && _); [apply completion_gated | apply skip_gated].
  - unfold address_phase. repeat apply seq_gated; try apply exec_gated.
    + intros s k. unfold last_transfer_error.
      destruct (flag_set _ _); [|apply skip_gated].
      revert s k. apply seq_gated; [apply exec_gated | apply invoke_if_gated].
    + assert (Hack : forall s k, In k (snd (ack_if_buffer s)) -> flag_set mask (callback_bit hdr k) = true).
      { intros s k. unfold ack_if_buffer.
        destruct (buffer_length (module s) =? 0); apply exec_gated. }
      intros s k. unfold address_response.
      destruct (nack_on_address (module s)); [apply exec_gated|].
      destruct (flag_set _ _); revert s k;
        (apply seq_gated; [apply exec_gated|]);
        (apply seq_gated; [apply invoke_if_gated | exact Hack]).
Qed.

Lemma stop_condition_gated :
  forall s k, In k (snd (stop_condition hdr callbacks mask s)) -> flag_set mask (callback_bit hdr k) = true.
Proof.
  unfold stop_condition. apply seq_gated.
  - unfold stop_disable_interrupts. repeat apply seq_gated;
      try apply exec_gated.
    intros s k. destruct (negb _); [apply exec_gated | apply skip_gated].
  - intros s k. unfold stop_completion.
    destruct (negb _); [|apply skip_gated].
    revert s k. apply seq_gated; [apply exec_gated|].
    intros s k. unfold stop_callback.
    destruct (flag_set mask (callback_bit hdr I2C_SLAVE_CALLBACK_READ_COMPLETE))
      eqn:Hrc; cbn [andb].
    + destruct (direction_eqb _ _); [intros [<- | []]; exact Hrc|].
      destruct (flag_set mask
                  (callback_bit hdr I2C_SLAVE_CALLBACK_WRITE_COMPLETE))
        eqn:Hwc; cbn [andb]; [|intros []].
      destruct (direction_eqb _ _); [intros [<- | []]; exact Hwc | intros []].
    + destruct (flag_set mask
                  (callback_bit hdr I2C_SLAVE_CALLBACK_WRITE_COMPLETE))
        eqn:Hwc; cbn [andb]; [|intros []].
      destruct (direction_eqb _ _); [intros [<- | []]; exact Hwc | intros []].
Qed.

Lemma data_ready_gated :
  forall s k, In k (snd (data_ready hdr callbacks mask s)) -> flag_set mask (callback_bit hdr k) = true.
Proof.
  intros s k. unfold data_ready. cbv zeta.
  destruct (_ || _).
  - revert s k. unfold early_termination.
    apply seq_gated; [apply exec_gated|].
    intros s k. destruct (direction_eqb _ _); revert s k;
      repeat (apply seq_gated; [apply exec_gated|]);
      [apply invoke_if_gated | apply exec_gated].
  - destruct (_ && _); [|apply skip_gated].
    destruct (direction_eqb _ _); apply exec_gated.
Qed.

End InvokedCallbacks.

Section OnlyEnabledAndRegistered.

Variable hdr : header_constants.

Lemma handler_invokes_gated (callbacks : callback_table) (s : machine)
  (k : i2c_slave_callback) :
  masks_in_range (module s) ->
  In k (snd (_i2c_slave_interrupt_handler hdr callbacks s)) ->
  callback_on hdr (module s) k = true.
Proof.
  intros Hmask. rewrite <- (callback_mask_on hdr (module s) k Hmask).
  unfold _i2c_slave_interrupt_handler. cbv zeta.
  destruct (flag_set _ _); [apply address_match_gated|].
  destruct (flag_set _ _); [apply stop_condition_gated|].
  destruct (flag_set _ _); [apply data_ready_gated | intros []].
Qed.

(** X4: whatever flags are pending and whatever the callbacks do to the
    session, [_i2c_slave_interrupt_handler] invokes a callback only if its
    bit was set in both [enabled_callback] and [registered_callback] when
    the handler was entered. *)
Theorem handler_invokes_only_enabled_and_registered
  (callbacks : callback_table) (s : machine) (k : i2c_slave_callback) :
  masks_in_range (module s) ->
  In k (snd (_i2c_slave_interrupt_handler hdr callbacks s)) ->
  flag_set (enabled_callback (module s)) (callback_bit hdr k) = true /\
  flag_set (registered_callback (module s)) (callback_bit hdr k) = true.
Proof.
  intros Hmask Hin. apply andb_true_iff.
  exact (handler_invokes_gated callbacks s k Hmask Hin).
Qed.

(** X5: after [i2c_slave_unregister_callback] of a callback type, no
    interrupt invokes that type, whatever event it reports. *)
Theorem unregistered_callback_is_not_invoked (callbacks : callback_table)
  (regs : SercomI2cs) (s : machine) (k : i2c_slave_callback) :
  masks_in_range (module s) ->
  ~ In k (snd (interrupt hdr callbacks regs
                 (i2c_slave_unregister_callback hdr k s))).
Proof.
  intros [He Hr] Hin. unfold interrupt in Hin.
  apply handler_invokes_gated in Hin.
  - cbn [module with_hw] in Hin. unfold callback_on in Hin.
    rewrite (unregister_callback_bit_clear hdr k s), andb_false_r in Hin.
    discriminate Hin.
  - split; [exact He | apply uint8_range].
Qed.

End OnlyEnabledAndRegistered.

(** Witness of X4: the READ_COMPLETE of a repeated start. *)
Lemma handler_invokes_only_enabled_and_registered_witness :
  flag_set
    (enabled_callback
       (module (with_hw (amatch_regs 0)
                  (sample_session 3 2 I2C_TRANSFER_WRITE STATUS_BUSY))))
    (callback_bit samr34 I2C_SLAVE_CALLBACK_READ_COMPLETE) = true /\
  flag_set
    (registered_callback
       (module (with_hw (amatch_regs 0)
                  (sample_session 3 2 I2C_TRANSFER_WRITE STATUS_BUSY))))
    (callback_bit samr34 I2C_SLAVE_CALLBACK_READ_COMPLETE) = true.
Proof.
  apply (handler_invokes_only_enabled_and_registered samr34 idle_callbacks
           (with_hw (amatch_regs 0)
              (sample_session 3 2 I2C_TRANSFER_WRITE STATUS_BUSY))
           I2C_SLAVE_CALLBACK_READ_COMPLETE).
  - split; cbn; lia.
  - cbn. left. reflexivity.
Defined.

(** Witness of X5: a repeated start after READ_COMPLETE was
    unregistered. *)
Lemma unregistered_callback_is_not_invoked_witness :
  ~ In I2C_SLAVE_CALLBACK_READ_COMPLETE
      (snd (interrupt samr34 idle_callbacks (amatch_regs 0)
              (i2c_slave_unregister_callback samr34
                 I2C_SLAVE_CALLBACK_READ_COMPLETE
                 (sample_session 3 2 I2C_TRANSFER_WRITE STATUS_BUSY)))).
Proof.
  apply (unregistered_callback_is_not_invoked samr34 idle_callbacks
           (amatch_regs 0)
           (sample_session 3 2 I2C_TRANSFER_WRITE STATUS_BUSY)
           I2C_SLAVE_CALLBACK_READ_COMPLETE).
  split; cbn; lia.
Defined.

(** ** The new address phase *)

Section AddressPhase.

Variable hdr : header_constants.

(** An address match with no transfer left to complete. *)
Lemma address_match_no_completion (callbacks : callback_table) (s : machine) :
  address_match_event hdr (i2c_hw s) ->
  buffer_length (module s) = buffer_remaining (module s) ->
  _i2c_slave_interrupt_handler hdr callbacks s
  = address_phase hdr callbacks
      (uint8 (Z.land (enabled_callback (module s))
                     (registered_callback (module s)))) s.
Proof.
  intros Hev Heq. rewrite (handler_address_match hdr callbacks s Hev).
  unfold address_match. apply seq_pure_l.
  unfold repeated_start_completion. cbv zeta.
  now rewrite Heq, Z.eqb_refl.
Qed.

Lemma last_transfer_error_none (callbacks : callback_table) (mask : Z)
  (s : machine) :
  flag_set (STATUS (i2c_hw s))
    (Z.lor (Z.lor (SERCOM_I2CS_STATUS_BUSERR hdr)
                  (SERCOM_I2CS_STATUS_COLL hdr))
           (SERCOM_I2CS_STATUS_LOWTOUT hdr)) = false ->
  last_transfer_error hdr callbacks mask s = (s, []).
Proof. intros H. unfold last_transfer_error. now rewrite H. Qed.

Lemma address_response_nack (callbacks : callback_table) (mask : Z)
  (s : machine) :
  nack_on_address (module s) = true ->
  address_response hdr callbacks mask s = (access (CTRLB_ackact false) s, []).
Proof. intros H. unfold address_response. now rewrite H. Qed.

(** X6: once [i2c_slave_enable_nack_on_address] was called, an address
    match (no transfer to complete, no bus error pending) is answered
    NACK even if a buffer is armed: no request callback is invoked, the
    session fields, the direction among them, stay as they are, and the
    only hardware accesses are NACK, command 3 and the ACK for the next
    byte. *)
Theorem nack_on_address_rejects (callbacks : callback_table) (s : machine) :
  address_match_event hdr (i2c_hw s) ->
  buffer_length (module s) = buffer_remaining (module s) ->
  flag_set (STATUS (i2c_hw s))
    (Z.lor (Z.lor (SERCOM_I2CS_STATUS_BUSERR hdr)
                  (SERCOM_I2CS_STATUS_COLL hdr))
           (SERCOM_I2CS_STATUS_LOWTOUT hdr)) = false ->
  exists s',
    _i2c_slave_interrupt_handler hdr callbacks
      (i2c_slave_enable_nack_on_address s) = (s', []) /\
    module s' = module (i2c_slave_enable_nack_on_address s) /\
    transfer_direction (module s') = transfer_direction (module s) /\
    ram s' = ram s /\
    accesses s' = accesses s ++ [CTRLB_ackact false; CTRLB_cmd3;
                                 CTRLB_ackact true].
Proof.
  intros Hev Heq Herr.
  rewrite address_match_no_completion by assumption.
  unfold address_phase.
  rewrite (seq_pure_l _ _ _ _
             (last_transfer_error_none callbacks _
                (i2c_slave_enable_nack_on_address s) Herr)).
  rewrite (seq_pure_l _ _ _ _
             (address_response_nack callbacks _
                (i2c_slave_enable_nack_on_address s) eq_refl)).
  rewrite !seq_exec. unfold exec.
  eexists. split; [reflexivity|].
  repeat split. cbn. now rewrite <- !app_assoc.
Qed.

(** The address phase with the NACK policy off. *)
Lemma address_phase_request (callbacks : callback_table) (s : machine) :
  masks_in_range (module s) ->
  flag_set (STATUS (i2c_hw s))
    (Z.lor (Z.lor (SERCOM_I2CS_STATUS_BUSERR hdr)
                  (SERCOM_I2CS_STATUS_COLL hdr))
           (SERCOM_I2CS_STATUS_LOWTOUT hdr)) = false ->
  nack_on_address (module s) = false ->
  let reading := flag_set (STATUS (i2c_hw s)) (SERCOM_I2CS_STATUS_DIR hdr) in
  let dir := if reading then I2C_TRANSFER_READ else I2C_TRANSFER_WRITE in
  let request := if reading then I2C_SLAVE_CALLBACK_READ_REQUEST
                 else I2C_SLAVE_CALLBACK_WRITE_REQUEST in
  let s1 := on_module (set_transfer_direction dir) s in
  let s2 := if callback_on hdr (module s) request
            then callbacks request s1 else s1 in
  let ack := negb (buffer_length (module s2) =? 0) in
  address_phase hdr callbacks
    (uint8 (Z.land (enabled_callback (module s))
                   (registered_callback (module s)))) s
  = (access (CTRLB_ackact true)
       (access CTRLB_cmd3 (access (CTRLB_ackact ack) s2)),
     if callback_on hdr (module s) request then [request] else []).
Proof.
  intros Hmask Herr Hnack. cbv zeta.
  unfold address_phase.
  rewrite (seq_pure_l _ _ _ _ (last_transfer_error_none callbacks _ _ Herr)).
  set (mask := uint8 (Z.land (enabled_callback (module s))
                             (registered_callback (module s)))).
  assert (Hrequest : forall dir request,
    (exec (on_module (set_transfer_direction dir)) ;;
     invoke_if hdr callbacks mask request ;;
     ack_if_buffer)%step s
    = (let s1 := on_module (set_transfer_direction dir) s in
       let s2 := if callback_on hdr (module s) request
                 then callbacks request s1 else s1 in
       (access (CTRLB_ackact (negb (buffer_length (module s2) =? 0))) s2,
        if callback_on hdr (module s) request then [request] else []))).
  { intros dir request. rewrite seq_exec. unfold seq, invoke_if, mask.
    rewrite (callback_mask_on hdr (module s)) by assumption.
    unfold ack_if_buffer. cbv zeta.
    destruct (callback_on hdr (module s) request); cbn [invoke skip];
      destruct (buffer_length _ =? 0); reflexivity. }
  unfold seq at 1. unfold address_response. rewrite Hnack.
  destruct (flag_set (STATUS (i2c_hw s)) (SERCOM_I2CS_STATUS_DIR hdr));
    rewrite Hrequest; cbv beta iota zeta; rewrite !seq_exec; unfold exec;
    now rewrite app_nil_r.
Qed.

(** X7: an address match with the NACK policy off (no transfer to
    complete, no bus error pending) records the direction the STATUS
    register reports, invokes the request callback of that direction when
    it is enabled and registered, and then answers ACK iff
    [buffer_length] is not 0 in the machine the callback returned: a job
    submitted from the request callback is acknowledged at once. *)
Theorem address_match_acks_iff_buffer (callbacks : callback_table)
  (s : machine) :
  address_match_event hdr (i2c_hw s) ->
  masks_in_range (module s) ->
  buffer_length (module s) = buffer_remaining (module s) ->
  flag_set (STATUS (i2c_hw s))
    (Z.lor (Z.lor (SERCOM_I2CS_STATUS_BUSERR hdr)
                  (SERCOM_I2CS_STATUS_COLL hdr))
           (SERCOM_I2CS_STATUS_LOWTOUT hdr)) = false ->
  nack_on_address (module s) = false ->
  let reading := flag_set (STATUS (i2c_hw s)) (SERCOM_I2CS_STATUS_DIR hdr) in
  let dir := if reading then I2C_TRANSFER_READ else I2C_TRANSFER_WRITE in
  let request := if reading then I2C_SLAVE_CALLBACK_READ_REQUEST
                 else I2C_SLAVE_CALLBACK_WRITE_REQUEST in
  let s1 := on_module (set_transfer_direction dir) s in
  let s2 := if callback_on hdr (module s) request
            then callbacks request s1 else s1 in
  let ack := negb (buffer_length (module s2) =? 0) in
  _i2c_slave_interrupt_handler hdr callbacks s
  = (access (CTRLB_ackact true)
       (access CTRLB_cmd3 (access (CTRLB_ackact ack) s2)),
     if callback_on hdr (module s) request then [request] else []).
Proof.
  intros Hev Hmask Heq Herr Hnack.
  rewrite address_match_no_completion by assumption.
  now apply address_phase_request.
Qed.

(** X8: a bus error, collision or low time-out left by the last transfer
    is reported at the next address match (no transfer to complete):
    [status] becomes [STATUS_ERR_IO], ERROR_LAST_TRANSFER is invoked on
    that machine, once, when it is enabled and registered, and only then
    the address is answered on the machine the callback returned. *)
Theorem last_transfer_error_reported_first (callbacks : callback_table)
  (s : machine) :
  address_match_event hdr (i2c_hw s) ->
  masks_in_range (module s) ->
  buffer_length (module s) = buffer_remaining (module s) ->
  flag_set (STATUS (i2c_hw s))
    (Z.lor (Z.lor (SERCOM_I2CS_STATUS_BUSERR hdr)
                  (SERCOM_I2CS_STATUS_COLL hdr))
           (SERCOM_I2CS_STATUS_LOWTOUT hdr)) = true ->
  let mask := uint8 (Z.land (enabled_callback (module s))
                            (registered_callback (module s))) in
  let s1 := on_module (set_status STATUS_ERR_IO) s in
  let first :=
    if callback_on hdr (module s) I2C_SLAVE_CALLBACK_ERROR_LAST_TRANSFER
    then (callbacks I2C_SLAVE_CALLBACK_ERROR_LAST_TRANSFER s1,
          [I2C_SLAVE_CALLBACK_ERROR_LAST_TRANSFER])
    else (s1, []) in
  let rest :=
    (address_response hdr callbacks mask ;;
     exec _i2c_slave_set_ctrlb_cmd3 ;;
     exec (_i2c_slave_set_ctrlb_ackact true))%step (fst first) in
  _i2c_slave_interrupt_handler hdr callbacks s
  = (fst rest, snd first ++ snd rest) /\
  count_occ callback_eq_dec
    (snd (_i2c_slave_interrupt_handler hdr callbacks s))
    I2C_SLAVE_CALLBACK_ERROR_LAST_TRANSFER
  = (if callback_on hdr (module s) I2C_SLAVE_CALLBACK_ERROR_LAST_TRANSFER
     then 1%nat else 0%nat).
Proof.
  intros Hev Hmask Heq Herr mask s1 first rest.
  assert (Hrun : _i2c_slave_interrupt_handler hdr callbacks s
                 = (fst rest, snd first ++ snd rest)).
  { rewrite address_match_no_completion by assumption. fold mask.
    unfold address_phase.
    assert (Hfirst : last_transfer_error hdr callbacks mask s = first).
    { unfold last_transfer_error. rewrite Herr, seq_exec. fold s1.
      unfold invoke_if, mask.
      rewrite (callback_mask_on hdr (module s)) by assumption.
      unfold first. now destruct (callback_on _ _ _). }
    unfold seq at 1. rewrite Hfirst. unfold rest.
    destruct first as [s2 l2]. cbn [fst snd].
    now destruct ((address_response hdr callbacks mask ;;
                   exec _i2c_slave_set_ctrlb_cmd3 ;;
                   exec (_i2c_slave_set_ctrlb_ackact true))%step s2). }
  split; [assumption|].
  assert (Hrest : ~ In I2C_SLAVE_CALLBACK_ERROR_LAST_TRANSFER (snd rest)).
  { unfold rest, not. rewrite !seq_snd, !in_app_iff. cbn [exec snd].
    intros [Hin | [[] | []]]. revert Hin. unfold address_response.
    destruct (nack_on_address _); [intros []|].
    destruct (flag_set (STATUS (i2c_hw (fst first))) _);
      rewrite !seq_snd, !in_app_iff;
      cbn [exec snd app fst]; unfold ack_if_buffer;
      (intros [[] | [H | H]];
       [ apply invoke_if_callbacks in H; discriminate H
       | destruct (buffer_length _ =? 0) in H; destruct H ]). }
  rewrite Hrun. cbn [snd]. rewrite count_occ_app.
  rewrite (proj1 (count_occ_not_In callback_eq_dec _ _) Hrest).
  unfold first. destruct (callback_on _ _ _); reflexivity.
Qed.

End AddressPhase.

(** Witness of X6: an address match on an armed buffer of 3 bytes. *)
Lemma nack_on_address_rejects_witness :
  exists s',
    _i2c_slave_interrupt_handler samr34 idle_callbacks
      (i2c_slave_enable_nack_on_address
         (with_hw (amatch_regs 0)
            (sample_session 3 3 I2C_TRANSFER_READ STATUS_BUSY))) = (s', []) /\
    accesses s' = [CTRLB_ackact false; CTRLB_cmd3; CTRLB_ackact true].
Proof.
  destruct (nack_on_address_rejects samr34 idle_callbacks
              (with_hw (amatch_regs 0)
                 (sample_session 3 3 I2C_TRANSFER_READ STATUS_BUSY)))
    as (s' & Hrun & _ & _ & _ & Hacc).
  - reflexivity.
  - reflexivity.
  - reflexivity.
  - exists s'. split; [exact Hrun | exact Hacc].
Defined.

(** Witness of X7: a master write answered by the sample callbacks, which
    submit a read job of 2 bytes: the address is acknowledged. *)
Lemma address_match_acks_iff_buffer_witness :
  accesses
    (fst (_i2c_slave_interrupt_handler samr34 sample_callbacks
            (with_hw (amatch_regs 0)
               (sample_session 0 0 I2C_TRANSFER_READ STATUS_OK))))
  = [INTENSET_write 7; CTRLB_ackact true; CTRLB_cmd3; CTRLB_ackact true].
Proof.
  rewrite (address_match_acks_iff_buffer samr34 sample_callbacks
             (with_hw (amatch_regs 0)
                (sample_session 0 0 I2C_TRANSFER_READ STATUS_OK))).
  - reflexivity.
  - reflexivity.
  - split; cbn; lia.
  - reflexivity.
  - reflexivity.
  - reflexivity.
Defined.

(** Witness of X8: a collision reported at the next address match. *)
Lemma last_transfer_error_reported_first_witness :
  count_occ callback_eq_dec
    (snd (_i2c_slave_interrupt_handler samr34 idle_callbacks
            (with_hw (amatch_regs 2)
               (sample_session 0 0 I2C_TRANSFER_READ STATUS_OK))))
    I2C_SLAVE_CALLBACK_ERROR_LAST_TRANSFER
  = 1%nat.
Proof.
  apply (last_transfer_error_reported_first samr34 idle_callbacks
           (with_hw (amatch_regs 2)
              (sample_session 0 0 I2C_TRANSFER_READ STATUS_OK))).
  - reflexivity.
  - split; cbn; lia.
  - reflexivity.
  - reflexivity.
Defined.

(** ** Transfers to the master *)

Section ReadTransfers.

Variable hdr : header_constants.

(** [k] acknowledged data ready events on a session in direction Read with
    at least [k] bytes left. *)
Lemma send_bytes (callbacks : callback_table) (events : list SercomI2cs) :
  Forall (fun regs =>
            data_ready_event hdr regs /\
            flag_set (STATUS regs) (SERCOM_I2CS_STATUS_RXNACK hdr) = false)
    events ->
  forall s,
    transfer_direction (module s) = I2C_TRANSFER_READ ->
    Z.of_nat (length events) <= buffer_remaining (module s) ->
    buffer_remaining (module s) <= buffer_length (module s) ->
    buffer_remaining (module s) < 65536 ->
    let s' := fst (interrupts hdr callbacks events s) in
    snd (interrupts hdr callbacks events s) = [] /\
    buffer (module s') = buffer (module s) + Z.of_nat (length events) /\
    buffer_remaining (module s')
    = buffer_remaining (module s) - Z.of_nat (length events) /\
    buffer_length (module s') = buffer_length (module s) /\
    status (module s') = status (module s) /\
    transfer_direction (module s') = I2C_TRANSFER_READ /\
    (forall a, ram s' a = ram s a) /\
    accesses s'
    = accesses s
      ++ map (fun i => DATA_write (ram s (buffer (module s) + Z.of_nat i)))
           (List.seq 0 (length events)).
Proof.
  intros Hall.
  induction Hall as [|regs events [Hregs Hack] _ IH]; intros s Hdir Hk Hle Hmax.
  - cbn. rewrite Z.add_0_r, Z.sub_0_r, app_nil_r.
    now repeat (split; [reflexivity || assumption|]).
  - cbn [length] in Hk. rewrite Nat2Z.inj_succ in Hk.
    cbv zeta. cbn [interrupts]. rewrite seq_fst, seq_snd. unfold interrupt.
    rewrite (data_ready_sends hdr callbacks (with_hw regs s) Hregs Hdir)
      by (cbn; (lia || now right)).
    cbn [fst snd app].
    set (s1 := _i2c_slave_write (with_hw regs s)).
    assert (Hrem1 : buffer_remaining (module s1)
                    = buffer_remaining (module s) - 1).
    { cbn. unfold uint16. apply Z.mod_small. lia. }
    assert (Hbuf1 : buffer (module s1) = buffer (module s) + 1) by reflexivity.
    specialize (IH s1). cbv zeta in IH.
    destruct IH as (Hl & Hb & Hr & Hn & Hst & Hd & Hram & Hacc);
      [assumption | lia | cbn [s1 module _i2c_slave_write on_module access
                                 buffer_length set_buffer_remaining
                                 set_buffer with_hw] in *; lia
       | lia |].
    rewrite Hl, Hb, Hr, Hn, Hst, Hd, Hacc, Hrem1, Hbuf1.
    cbn [length]. rewrite Nat2Z.inj_succ.
    split; [reflexivity|]. split; [lia|]. split; [lia|].
    do 3 (split; [reflexivity|]).
    split; [intros a; now rewrite Hram|].
    cbn [List.seq map]. rewrite <- seq_shift, map_map.
    change (accesses s1)
      with (accesses s ++ [DATA_write (ram s (buffer (module s)))]).
    rewrite <- app_assoc. cbn [app]. rewrite Z.add_0_r.
    do 2 f_equal. apply map_ext. intros i.
    change (ram s1) with (ram s). do 2 f_equal. lia.
Qed.

(** X9: after a write job of [data_length] N is accepted in direction Read
    (the master reads), data ready events send the bytes of the buffer to
    the DATA register one by one, in address order, and decrement
    [buffer_remaining]; the NACK flag is not looked at for the first byte;
    memory is not written and no callback is invoked.  After the N-th
    byte one more data ready event ends the transfer without error and
    without callback: [status] is [STATUS_OK], the counters are 0 and the
    data ready source is written to INTENCLR. *)
Theorem write_job_sends_bytes_in_order (callbacks : callback_table)
  (packet : i2c_slave_packet) (s0 : machine) (e1 : SercomI2cs)
  (rest : list SercomI2cs) :
  buffer_remaining (module s0) = 0 ->
  transfer_direction (module s0) = I2C_TRANSFER_READ ->
  data_ready_event hdr e1 ->
  Forall (fun regs =>
            data_ready_event hdr regs /\
            flag_set (STATUS regs) (SERCOM_I2CS_STATUS_RXNACK hdr) = false)
    rest ->
  Z.of_nat (length (e1 :: rest)) <= data_length packet < 65536 ->
  let s := snd (i2c_slave_write_packet_job hdr packet s0) in
  let s' := fst (interrupts hdr callbacks (e1 :: rest) s) in
  fst (i2c_slave_write_packet_job hdr packet s0) = STATUS_OK /\
  snd (interrupts hdr callbacks (e1 :: rest) s) = [] /\
  buffer (module s') = data packet + Z.of_nat (length (e1 :: rest)) /\
  buffer_remaining (module s')
  = data_length packet - Z.of_nat (length (e1 :: rest)) /\
  status (module s') = STATUS_BUSY /\
  (forall a, ram s' a = ram s0 a) /\
  accesses s'
  = accesses s
    ++ map (fun i => DATA_write (ram s0 (data packet + Z.of_nat i)))
         (List.seq 0 (length (e1 :: rest))) /\
  (Z.of_nat (length (e1 :: rest)) = data_length packet ->
   forall regs,
     data_ready_event hdr regs ->
     exists s1,
       interrupt hdr callbacks regs s' = (s1, []) /\
       status (module s1) = STATUS_OK /\
       buffer_length (module s1) = 0 /\
       buffer_remaining (module s1) = 0 /\
       ram s1 = ram s' /\
       accesses s1
       = accesses s' ++ [CTRLB_ackact false;
                         CTRLB_or (SERCOM_I2CS_CTRLB_CMD hdr 2);
                         INTENCLR_write (SERCOM_I2CS_INTFLAG_DRDY hdr)]).
Proof.
  intros Hidle Hdir He1 Hrest Hlen s s'.
  cbn [length] in Hlen. rewrite Nat2Z.inj_succ in Hlen.
  assert (Hs : s = save_packet hdr packet s0).
  { unfold s, i2c_slave_write_packet_job. now rewrite Hidle. }
  assert (Hok : fst (i2c_slave_write_packet_job hdr packet s0) = STATUS_OK).
  { unfold i2c_slave_write_packet_job. now rewrite Hidle. }
  assert (Hfirst : interrupt hdr callbacks e1 s
                   = (_i2c_slave_write (with_hw e1 s), [])).
  { unfold interrupt. apply data_ready_sends; try assumption.
    - now rewrite Hs.
    - rewrite Hs. cbn. lia.
    - left. now rewrite Hs. }
  set (s1 := _i2c_slave_write (with_hw e1 s)) in *.
  assert (Hrem1 : buffer_remaining (module s1) = data_length packet - 1).
  { unfold s1. rewrite Hs. cbn. unfold uint16. apply Z.mod_small. lia. }
  assert (Hlen1 : buffer_length (module s1) = data_length packet)
    by (unfold s1; now rewrite Hs).
  assert (Hbuf1 : buffer (module s1) = data packet + 1)
    by (unfold s1; now rewrite Hs).
  destruct (send_bytes callbacks rest Hrest s1)
    as (Hl & Hb & Hr & Hn & Hst & Hd & Hram & Hacc);
    [unfold s1; now rewrite Hs | lia | lia | lia |].
  assert (Hrun : interrupts hdr callbacks (e1 :: rest) s
                 = interrupts hdr callbacks rest s1).
  { cbn [interrupts]. now rewrite (seq_pure_l _ _ _ _ Hfirst). }
  unfold s'. rewrite Hrun.
  rewrite Hb, Hr, Hst, Hacc, Hrem1, Hbuf1.
  cbn [length]. rewrite Nat2Z.inj_succ.
  split; [assumption|]. split; [assumption|]. split; [lia|]. split; [lia|].
  split; [unfold s1; now rewrite Hs|].
  split; [intros a; rewrite Hram; unfold s1; now rewrite Hs|].
  split.
  - cbn [List.seq map]. rewrite <- seq_shift, map_map.
    change (accesses s1)
      with (accesses s ++ [DATA_write (ram s (buffer (module s)))]).
    rewrite <- app_assoc. cbn [app]. rewrite Z.add_0_r.
    replace (ram s (buffer (module s))) with (ram s0 (data packet))
      by now rewrite Hs.
    do 2 f_equal. apply map_ext. intros i.
    change (ram s1) with (ram s). rewrite Hs.
    cbn [ram save_packet access on_module]. do 2 f_equal. lia.
  - intros Hfull regs Hregs. unfold interrupt.
    destruct (data_ready_normal_end hdr callbacks
                (with_hw regs (fst (interrupts hdr callbacks rest s1))))
      as (s2 & Hm2 & Hr2 & Ha2 & Hrun2); try assumption.
    { left. cbn [module with_hw]. lia. }
    exists s2. rewrite Hm2. split; [exact Hrun2|].
    do 3 (split; [reflexivity|]). split; [exact Hr2|].
    rewrite Ha2. cbn [accesses with_hw]. now rewrite Hacc, Hbuf1.
Qed.

(** X10: when the master answers NACK with bytes of the write job left
    (direction Read, [0 < buffer_remaining < buffer_length]), the data
    ready event sends nothing more: the counters are zeroed, [status] is
    [STATUS_OK] and no callback is invoked.  The stop condition that
    follows then reports WRITE_COMPLETE (when enabled and registered), as
    for a transfer read to its end. *)
Theorem master_nack_ends_read_transfer (callbacks : callback_table)
  (s : machine) (stop : SercomI2cs) :
  data_ready_event hdr (i2c_hw s) ->
  masks_in_range (module s) ->
  transfer_direction (module s) = I2C_TRANSFER_READ ->
  0 < buffer_remaining (module s) < buffer_length (module s) ->
  flag_set (STATUS (i2c_hw s)) (SERCOM_I2CS_STATUS_RXNACK hdr) = true ->
  stop_event hdr stop ->
  exists s1 s2,
    _i2c_slave_interrupt_handler hdr callbacks s = (s1, []) /\
    status (module s1) = STATUS_OK /\
    buffer_length (module s1) = 0 /\
    buffer_remaining (module s1) = 0 /\
    buffer (module s1) = buffer (module s) /\
    ram s1 = ram s /\
    accesses s1
    = accesses s ++ [CTRLB_ackact false;
                     CTRLB_or (SERCOM_I2CS_CTRLB_CMD hdr 2);
                     INTENCLR_write (SERCOM_I2CS_INTFLAG_DRDY hdr)] /\
    status (module s2) = STATUS_OK /\
    interrupt hdr callbacks stop s1
    = if callback_on hdr (module s) I2C_SLAVE_CALLBACK_WRITE_COMPLETE
      then (callbacks I2C_SLAVE_CALLBACK_WRITE_COMPLETE s2,
            [I2C_SLAVE_CALLBACK_WRITE_COMPLETE])
      else (s2, []).
Proof.
  intros Hev Hmask Hdir Hrem Hnack Hstop.
  destruct (data_ready_normal_end hdr callbacks s Hev Hdir)
    as (s1 & Hm1 & Hr1 & Ha1 & Hrun1); [right; split; [lia|assumption]|].
  destruct (stop_event_completion hdr callbacks (with_hw stop s1))
    as (s2 & Hm2 & _ & Hrun2); try assumption.
  - cbn [module with_hw]. now rewrite Hm1.
  - cbn [module with_hw]. rewrite Hm1. discriminate.
  - cbn [module with_hw]. rewrite Hm1. discriminate.
  - exists s1, s2. rewrite Hm1, Hm2.
    do 7 (split; [reflexivity || assumption|]).
    split; [reflexivity|].
    unfold interrupt. rewrite Hrun2. cbn [module with_hw]. rewrite Hm1.
    cbn [transfer_direction set_status set_buffer_length
         set_buffer_remaining]. rewrite Hdir. reflexivity.
Qed.

(** X11: on a session with [buffer_remaining <= buffer_length] a data
    ready event never falls through the handler: it invokes a callback or
    makes at least one hardware access (a byte transferred, or the
    transfer terminated on CTRLB). *)
Theorem data_ready_is_serviced (callbacks : callback_table) (s : machine) :
  data_ready_event hdr (i2c_hw s) ->
  masks_in_range (module s) ->
  buffer_remaining (module s) <= buffer_length (module s) ->
  snd (_i2c_slave_interrupt_handler hdr callbacks s) <> [] \/
  exists a tail,
    accesses (fst (_i2c_slave_interrupt_handler hdr callbacks s))
    = accesses s ++ a :: tail.
Proof.
  intros Hev Hmask Hle.
  destruct (Z.leb_spec (buffer_remaining (module s)) 0) as [Hzero|Hpos].
  - destruct (transfer_direction (module s)) eqn:Hdir.
    + destruct (data_ready_overflow_step hdr callbacks s Hev Hmask Hdir Hzero)
        as (s1 & _ & _ & Ha & Hrun).
      rewrite Hrun. destruct (callback_on _ _ _).
      * left. discriminate.
      * right. cbn [fst]. rewrite Ha. now do 2 eexists.
    + destruct (data_ready_normal_end hdr callbacks s Hev Hdir)
        as (s1 & _ & _ & Ha & Hrun); [now left|].
      right. rewrite Hrun. cbn [fst]. rewrite Ha. now do 2 eexists.
  - destruct (transfer_direction (module s)) eqn:Hdir.
    + right. rewrite (data_ready_receives hdr callbacks s Hev Hdir) by lia.
      now do 2 eexists.
    + destruct (flag_set (STATUS (i2c_hw s)) (SERCOM_I2CS_STATUS_RXNACK hdr))
        eqn:Hnack.
      * destruct (Z.eq_dec (buffer_remaining (module s))
                    (buffer_length (module s))) as [Heq|Hne].
        -- right.
           rewrite (data_ready_sends hdr callbacks s Hev Hdir) by (lia || now left).
           now do 2 eexists.
        -- destruct (data_ready_normal_end hdr callbacks s Hev Hdir)
             as (s1 & _ & _ & Ha & Hrun); [right; split; [lia|assumption]|].
           right. rewrite Hrun. cbn [fst]. rewrite Ha. now do 2 eexists.
      * right.
        rewrite (data_ready_sends hdr callbacks s Hev Hdir) by (lia || now right).
        now do 2 eexists.
Qed.

End ReadTransfers.

(** Witness of X9: three bytes sent, the NACK flag of an earlier transfer
    still set at the first one. *)
Lemma write_job_sends_bytes_in_order_witness :
  accesses
    (fst (interrupts samr34 idle_callbacks
            ({| INTFLAG := 4; STATUS := 4; DATA := 0 |}
             :: [drdy_regs 0; drdy_regs 0])
            (snd (i2c_slave_write_packet_job samr34 (sample_packet 3)
                    (sample_session 0 0 I2C_TRANSFER_READ STATUS_OK)))))
  = [INTENSET_write 7; DATA_write 10; DATA_write 11; DATA_write 12].
Proof.
  apply (write_job_sends_bytes_in_order samr34 idle_callbacks
           (sample_packet 3)
           (sample_session 0 0 I2C_TRANSFER_READ STATUS_OK)
           {| INTFLAG := 4; STATUS := 4; DATA := 0 |}
           [drdy_regs 0; drdy_regs 0]).
  - reflexivity.
  - reflexivity.
  - repeat split; reflexivity.
  - repeat constructor.
  - cbn. lia.
Defined.

(** Witness of X10: the master answers NACK after one byte of three. *)
Lemma master_nack_ends_read_transfer_witness :
  exists s1 s2,
    _i2c_slave_interrupt_handler samr34 idle_callbacks
      (with_hw {| INTFLAG := 4; STATUS := 4; DATA := 0 |}
         (sample_session 3 2 I2C_TRANSFER_READ STATUS_BUSY)) = (s1, []) /\
    status (module s1) = STATUS_OK /\
    interrupt samr34 idle_callbacks prec_regs s1
    = (s2, [I2C_SLAVE_CALLBACK_WRITE_COMPLETE]).
Proof.
  destruct (master_nack_ends_read_transfer samr34 idle_callbacks
              (with_hw {| INTFLAG := 4; STATUS := 4; DATA := 0 |}
                 (sample_session 3 2 I2C_TRANSFER_READ STATUS_BUSY))
              prec_regs)
    as (s1 & s2 & Hrun & Hst & _ & _ & _ & _ & _ & _ & Hstop).
  - repeat split; reflexivity.
  - split; cbn; lia.
  - reflexivity.
  - cbn. lia.
  - reflexivity.
  - split; reflexivity.
  - exists s1, s2. split; [exact Hrun|]. split; [exact Hst | exact Hstop].
Defined.

(** Witness of X11: a data ready event on an exhausted buffer with the
    ERROR callback unregistered. *)
Lemma data_ready_is_serviced_witness :
  snd (_i2c_slave_interrupt_handler samr34 idle_callbacks
         (with_hw (drdy_regs 7)
            (i2c_slave_unregister_callback samr34 I2C_SLAVE_CALLBACK_ERROR
               (sample_session 2 0 I2C_TRANSFER_WRITE STATUS_BUSY)))) <> [] \/
  exists a tail,
    accesses
      (fst (_i2c_slave_interrupt_handler samr34 idle_callbacks
              (with_hw (drdy_regs 7)
                 (i2c_slave_unregister_callback samr34
                    I2C_SLAVE_CALLBACK_ERROR
                    (sample_session 2 0 I2C_TRANSFER_WRITE STATUS_BUSY)))))
    = accesses
        (with_hw (drdy_regs 7)
           (i2c_slave_unregister_callback samr34 I2C_SLAVE_CALLBACK_ERROR
              (sample_session 2 0 I2C_TRANSFER_WRITE STATUS_BUSY)))
      ++ a :: tail.
Proof.
  apply (data_ready_is_serviced samr34 idle_callbacks
           (with_hw (drdy_regs 7)
              (i2c_slave_unregister_callback samr34 I2C_SLAVE_CALLBACK_ERROR
                 (sample_session 2 0 I2C_TRANSFER_WRITE STATUS_BUSY)))).
  - repeat split; reflexivity.
  - split; cbn; lia.
  - cbn. lia.
Defined.

(** ** Whole transactions and job submission *)

Section Transactions.

Variable hdr : header_constants.

(** X12: a whole master write.  The session is idle with no buffer, the
    WRITE_REQUEST callback submits a read job of N bytes.  The address
    match invokes WRITE_REQUEST and acknowledges the address; N data ready
    events store the N bytes in the buffer without any callback; the stop
    condition invokes READ_COMPLETE with [status] OK, both counters 0 and
    the bytes of the master in memory, in order. *)
Theorem master_write_transaction (callbacks : callback_table)
  (packet : i2c_slave_packet) (s0 : machine) (am : SercomI2cs)
  (events : list SercomI2cs) (stop : SercomI2cs) :
  (forall s, callbacks I2C_SLAVE_CALLBACK_WRITE_REQUEST s
             = snd (i2c_slave_read_packet_job hdr packet s)) ->
  masks_in_range (module s0) ->
  callback_on hdr (module s0) I2C_SLAVE_CALLBACK_WRITE_REQUEST = true ->
  callback_on hdr (module s0) I2C_SLAVE_CALLBACK_READ_COMPLETE = true ->
  buffer_length (module s0) = 0 ->
  buffer_remaining (module s0) = 0 ->
  nack_on_address (module s0) = false ->
  address_match_event hdr am ->
  flag_set (STATUS am)
    (Z.lor (Z.lor (SERCOM_I2CS_STATUS_BUSERR hdr)
                  (SERCOM_I2CS_STATUS_COLL hdr))
           (SERCOM_I2CS_STATUS_LOWTOUT hdr)) = false ->
  flag_set (STATUS am) (SERCOM_I2CS_STATUS_DIR hdr) = false ->
  0 < data_length packet < 65536 ->
  Forall (data_ready_event hdr) events ->
  Z.of_nat (length events) = data_length packet ->
  stop_event hdr stop ->
  let r1 := interrupt hdr callbacks am s0 in
  let r2 := interrupts hdr callbacks events (fst r1) in
  let r3 := interrupt hdr callbacks stop (fst r2) in
  snd r1 = [I2C_SLAVE_CALLBACK_WRITE_REQUEST] /\
  accesses (fst r1)
  = accesses s0
    ++ [INTENSET_write
          (Z.lor (Z.lor (SERCOM_I2CS_INTFLAG_AMATCH hdr)
                        (SERCOM_I2CS_INTFLAG_DRDY hdr))
                 (SERCOM_I2CS_INTFLAG_PREC hdr));
        CTRLB_ackact true; CTRLB_cmd3; CTRLB_ackact true] /\
  snd r2 = [] /\
  exists s4,
    r3 = (callbacks I2C_SLAVE_CALLBACK_READ_COMPLETE s4,
          [I2C_SLAVE_CALLBACK_READ_COMPLETE]) /\
    status (module s4) = STATUS_OK /\
    buffer_length (module s4) = 0 /\
    buffer_remaining (module s4) = 0 /\
    (forall i regs,
       nth_error events i = Some regs ->
       ram s4 (data packet + Z.of_nat i) = DATA regs).
Proof.
  intros Hcb Hmask Hwr Hrc Hlen0 Hrem0 Hnack Ham Herr Hdirflag HN Hall Hk
    Hstop r1 r2 r3.
  set (s1 := on_module (set_transfer_direction I2C_TRANSFER_WRITE)
               (with_hw am s0)).
  set (a := access (CTRLB_ackact true)
              (access CTRLB_cmd3
                 (access (CTRLB_ackact true) (save_packet hdr packet s1)))).
  assert (Hr1 : r1 = (a, [I2C_SLAVE_CALLBACK_WRITE_REQUEST])).
  { unfold r1, interrupt.
    rewrite (address_match_no_completion hdr callbacks (with_hw am s0))
      by (assumption || (cbn [module with_hw]; congruence)).
    rewrite (address_phase_request hdr callbacks (with_hw am s0))
      by assumption.
    cbv zeta. cbn [i2c_hw with_hw module]. rewrite Hdirflag, Hwr, Hcb.
    fold s1. unfold i2c_slave_read_packet_job.
    replace (buffer_remaining (module s1)) with 0 by (now rewrite <- Hrem0).
    cbn [Z.ltb Z.compare snd].
    replace (buffer_length (module (save_packet hdr packet s1)))
      with (data_length packet) by reflexivity.
    replace (data_length packet =? 0) with false
      by (symmetry; apply Z.eqb_neq; lia).
    reflexivity. }
  assert (Hfst1 : fst r1 = a) by now rewrite Hr1.
  destruct (receive_bytes hdr callbacks events Hall a)
    as (Hl & Hb & Hr & Hn & Hst & Hd & He & Hrg & Hin & Hout & Hacc);
    [reflexivity | cbn; lia | cbn; lia | cbn; lia |].
  cbv zeta in Hb, Hr, Hn, Hst, Hd, He, Hrg, Hin, Hout, Hacc.
  split; [now rewrite Hr1|].
  split; [rewrite Hfst1; cbn; now rewrite <- !app_assoc|].
  unfold r3, r2. rewrite Hfst1.
  split; [exact Hl|].
  destruct (stop_event_completion hdr callbacks
              (with_hw stop (fst (interrupts hdr callbacks events a))))
    as (s4 & Hm4 & Hr4 & Hrun4); try assumption.
  - unfold masks_in_range. cbn [module with_hw]. rewrite He, Hrg. exact Hmask.
  - cbn [module with_hw]. rewrite Hst. discriminate.
  - cbn [module with_hw]. rewrite Hst. discriminate.
  - exists s4. rewrite Hm4.
    split; [|do 3 (split; [reflexivity|])].
    + unfold interrupt. rewrite Hrun4. cbn [module with_hw]. rewrite Hd.
      replace (callback_on hdr
                 (module (fst (interrupts hdr callbacks events a)))
                 I2C_SLAVE_CALLBACK_READ_COMPLETE) with true; [reflexivity|].
      rewrite <- Hrc. unfold callback_on. now rewrite He, Hrg.
    + intros i regs Hnth. rewrite Hr4. cbn [ram with_hw].
      exact (Hin i regs Hnth).
Qed.

(** X13: while a job of at least one byte is in flight, a further
    submission through either job function returns [STATUS_BUSY] and
    leaves the first job as it is. *)
Theorem second_job_is_rejected (packet1 packet2 : i2c_slave_packet)
  (s : machine) :
  buffer_remaining (module s) = 0 ->
  0 < data_length packet1 ->
  forall job1 job2,
    job1 = i2c_slave_read_packet_job hdr \/
    job1 = i2c_slave_write_packet_job hdr ->
    job2 = i2c_slave_read_packet_job hdr \/
    job2 = i2c_slave_write_packet_job hdr ->
    fst (job1 packet1 s) = STATUS_OK /\
    job2 packet2 (snd (job1 packet1 s))
    = (STATUS_BUSY, snd (job1 packet1 s)).
Proof.
  intros Hidle Hpos job1 job2 H1 H2.
  assert (Hjob1 : job1 packet1 s = (STATUS_OK, save_packet hdr packet1 s)).
  { destruct H1; subst job1;
      [unfold i2c_slave_read_packet_job | unfold i2c_slave_write_packet_job];
      now rewrite Hidle. }
  rewrite Hjob1. split; [reflexivity|]. cbn [snd].
  assert (Hbusy : (0 <? buffer_remaining (module (save_packet hdr packet1 s)))
                  = true) by (apply Z.ltb_lt; cbn; lia).
  destruct H2; subst job2;
    [unfold i2c_slave_read_packet_job | unfold i2c_slave_write_packet_job];
    now rewrite Hbusy.
Qed.

(** X14: a packet of [data_length] 0 is accepted ([STATUS_OK], [status]
    set to [STATUS_BUSY]) but arms nothing: the next submission is
    accepted as well, and an address match (NACK policy off, no bus error,
    callbacks that leave the session alone) is answered NACK. *)
Theorem empty_packet_arms_nothing (callbacks : callback_table)
  (packet packet2 : i2c_slave_packet) (s : machine) (am : SercomI2cs) :
  buffer_remaining (module s) = 0 ->
  data_length packet = 0 ->
  masks_in_range (module s) ->
  nack_on_address (module s) = false ->
  address_match_event hdr am ->
  flag_set (STATUS am)
    (Z.lor (Z.lor (SERCOM_I2CS_STATUS_BUSERR hdr)
                  (SERCOM_I2CS_STATUS_COLL hdr))
           (SERCOM_I2CS_STATUS_LOWTOUT hdr)) = false ->
  (forall k s', module (callbacks k s') = module s') ->
  forall job,
    job = i2c_slave_read_packet_job hdr \/
    job = i2c_slave_write_packet_job hdr ->
    fst (job packet s) = STATUS_OK /\
    status (module (snd (job packet s))) = STATUS_BUSY /\
    fst (i2c_slave_read_packet_job hdr packet2 (snd (job packet s)))
    = STATUS_OK /\
    fst (i2c_slave_write_packet_job hdr packet2 (snd (job packet s)))
    = STATUS_OK /\
    exists before,
      accesses (fst (interrupt hdr callbacks am (snd (job packet s))))
      = before ++ [CTRLB_ackact false; CTRLB_cmd3; CTRLB_ackact true].
Proof.
  intros Hidle Hzero Hmask Hnack Ham Herr Hcb job Hjob.
  assert (Hrun : job packet s = (STATUS_OK, save_packet hdr packet s)).
  { destruct Hjob; subst job;
      [unfold i2c_slave_read_packet_job | unfold i2c_slave_write_packet_job];
      now rewrite Hidle. }
  rewrite Hrun. cbn [fst snd].
  set (s1 := save_packet hdr packet s).
  assert (Hrem1 : buffer_remaining (module s1) = 0) by exact Hzero.
  assert (Hlen1 : buffer_length (module s1) = 0) by exact Hzero.
  split; [reflexivity|]. split; [reflexivity|].
  split; [unfold i2c_slave_read_packet_job; now rewrite Hrem1|].
  split; [unfold i2c_slave_write_packet_job; now rewrite Hrem1|].
  unfold interrupt.
  rewrite (address_match_no_completion hdr callbacks (with_hw am s1))
    by (assumption || (cbn [module with_hw]; congruence)).
  rewrite (address_phase_request hdr callbacks (with_hw am s1))
    by assumption.
  cbv zeta. cbn [fst].
  match goal with
  | |- exists before,
         accesses (access _ (access _ (access (CTRLB_ackact ?b) ?x))) = _ =>
      exists (accesses x); replace b with false
  end.
  - cbn. now rewrite <- !app_assoc.
  - symmetry. apply negb_false_iff, Z.eqb_eq.
    destruct (callback_on _ _ _); [rewrite Hcb|]; exact Hlen1.
Qed.

End Transactions.

(** Witness of X12: the sample callbacks submit a read job of 2 bytes. *)
Lemma master_write_transaction_witness :
  exists s4,
    interrupt samr34 sample_callbacks prec_regs
      (fst (interrupts samr34 sample_callbacks [drdy_regs 7; drdy_regs 8]
              (fst (interrupt samr34 sample_callbacks (amatch_regs 0)
                      (sample_session 0 0 I2C_TRANSFER_READ STATUS_OK)))))
    = (sample_callbacks I2C_SLAVE_CALLBACK_READ_COMPLETE s4,
       [I2C_SLAVE_CALLBACK_READ_COMPLETE]) /\
    status (module s4) = STATUS_OK /\
    ram s4 (data (sample_packet 2) + Z.of_nat 1) = DATA (drdy_regs 8).
Proof.
  destruct (master_write_transaction samr34 sample_callbacks (sample_packet 2)
              (sample_session 0 0 I2C_TRANSFER_READ STATUS_OK)
              (amatch_regs 0) [drdy_regs 7; drdy_regs 8] prec_regs)
    as (_ & _ & _ & s4 & Hrun & Hst & _ & _ & Hram).
  - reflexivity.
  - split; cbn; lia.
  - reflexivity.
  - reflexivity.
  - reflexivity.
  - reflexivity.
  - reflexivity.
  - reflexivity.
  - reflexivity.
  - reflexivity.
  - cbn. lia.
  - repeat constructor.
  - reflexivity.
  - split; reflexivity.
  - exists s4. split; [exact Hrun|]. split; [exact Hst|].
    now apply Hram.
Defined.

(** Witness of X13: a write job submitted over a read job of 3 bytes. *)
Lemma second_job_is_rejected_witness :
  i2c_slave_write_packet_job samr34 (sample_packet 1)
    (snd (i2c_slave_read_packet_job samr34 (sample_packet 3)
            (sample_session 0 0 I2C_TRANSFER_WRITE STATUS_OK)))
  = (STATUS_BUSY,
     snd (i2c_slave_read_packet_job samr34 (sample_packet 3)
            (sample_session 0 0 I2C_TRANSFER_WRITE STATUS_OK))).
Proof.
  apply (second_job_is_rejected samr34 (sample_packet 3) (sample_packet 1)
           (sample_session 0 0 I2C_TRANSFER_WRITE STATUS_OK)).
  - reflexivity.
  - cbn. lia.
  - left. reflexivity.
  - right. reflexivity.
Defined.

(** Witness of X14: an empty read job, then an address match. *)
Lemma empty_packet_arms_nothing_witness :
  exists before,
    accesses
      (fst (interrupt samr34 idle_callbacks (amatch_regs 0)
              (snd (i2c_slave_read_packet_job samr34 (sample_packet 0)
                      (sample_session 0 0 I2C_TRANSFER_WRITE STATUS_OK)))))
    = before ++ [CTRLB_ackact false; CTRLB_cmd3; CTRLB_ackact true].
Proof.
  apply (empty_packet_arms_nothing samr34 idle_callbacks (sample_packet 0)
           (sample_packet 3)
           (sample_session 0 0 I2C_TRANSFER_WRITE STATUS_OK) (amatch_regs 0)).
  - reflexivity.
  - reflexivity.
  - split; cbn; lia.
  - reflexivity.
  - reflexivity.
  - reflexivity.
  - reflexivity.
  - left. reflexivity.
Defined.

(** * Properties of the TCC callback driver *)

Lemma uint32_testbit (x n : Z) :
  0 <= n -> Z.testbit (uint32 x) n = (n <? 32) && Z.testbit x n.
Proof. intros Hn. unfold uint32. now apply (Z.testbit_mod_pow2 x 32 n). Qed.

Lemma flag_set_false_iff (x m : Z) : flag_set x m = false <-> Z.land x m = 0.
Proof.
  unfold flag_set. rewrite negb_false_iff. apply Z.eqb_eq.
Qed.

Section TccProperties.

Variable _tcc_intflag : list Z.

(** The indices the loop invokes from index [i] on. *)
Lemma tcc_scan_invoked (callback : nat -> tcc_callback_t) (mask : Z)
  (flags : list Z) :
  forall (i : nat) (s : tcc_machine),
    snd (tcc_scan callback mask i flags s)
    = filter (fun j => flag_set mask (nth (j - i) flags 0))
        (List.seq i (length flags)).
Proof.
  induction flags as [|flag flags IH]; intros i s; [reflexivity|].
  cbn [tcc_scan length List.seq filter].
  assert (Htail : filter (fun j => flag_set mask (nth (j - i) (flag :: flags) 0))
                    (List.seq (S i) (length flags))
                  = filter (fun j => flag_set mask (nth (j - S i) flags 0))
                      (List.seq (S i) (length flags))).
  { apply filter_ext_in. intros j Hj. apply in_seq in Hj.
    replace (j - i)%nat with (S (j - S i)) by lia. reflexivity. }
  rewrite Htail, Nat.sub_diag. cbn [nth]. cbv zeta.
  destruct (flag_set mask flag).
  - rewrite <- (IH (S i) (tcc_access_hw (TCC_INTFLAG_write flag)
                            (callback i s))).
    now destruct (tcc_scan callback mask (S i) flags _).
  - apply IH.
Qed.


Lemma tcc_handler_invoked_list (callback : nat -> tcc_callback_t)
  (s : tcc_machine) :
  snd (_tcc_interrupt_handler _tcc_intflag callback s)
  = filter (fun i =>
              flag_set
                (Z.land (Z.land (TCC_INTFLAG s)
                                (register_callback_mask (tcc s)))
                        (enable_callback_mask (tcc s)))
                (tcc_intflag_of _tcc_intflag i))
      (List.seq 0 (TCC_CALLBACK_N _tcc_intflag)).
Proof.
  unfold _tcc_interrupt_handler. rewrite tcc_scan_invoked.
  apply filter_ext. intros j. now rewrite Nat.sub_0_r.
Qed.


Lemma tcc_handler_invoked_flag (callback : nat -> tcc_callback_t)
  (s : tcc_machine) (i : nat) :
  In i (snd (_tcc_interrupt_handler _tcc_intflag callback s)) ->
  flag_set
    (Z.land (Z.land (TCC_INTFLAG s) (register_callback_mask (tcc s)))
            (enable_callback_mask (tcc s)))
    (tcc_intflag_of _tcc_intflag i) = true.
Proof.
  rewrite tcc_handler_invoked_list.
  intros Hin. apply filter_In in Hin. now destruct Hin as [_ Hflag].
Qed.

(** X16: once a callback type is unregistered with
    [tcc_unregister_callback], or disabled with [tcc_disable_callback],
    the handler does not invoke it, whatever flags are pending. *)
Theorem tcc_removed_callback_is_not_invoked (callback : nat -> tcc_callback_t)
  (s : tcc_machine) (i : nat) :
  ~ In i (snd (_tcc_interrupt_handler _tcc_intflag callback
                 (snd (tcc_unregister_callback _tcc_intflag i s)))) /\
  ~ In i (snd (_tcc_interrupt_handler _tcc_intflag callback
                 (tcc_disable_callback _tcc_intflag i s))).
Proof.
  split; intros Hin; apply tcc_handler_invoked_flag in Hin;
    apply not_false_iff_true in Hin; apply Hin; clear Hin;
    apply flag_set_false_iff;
    cbn [tcc_unregister_callback tcc_disable_callback snd tcc
         set_register_callback_mask set_enable_callback_mask tcc_access_hw
         TCC_INTFLAG register_callback_mask enable_callback_mask];
    unfold uint32; change 4294967296 with (2 ^ 32); bitwise;
    rewrite Z.bits_0;
    repeat match goal with
           | |- context [Z.testbit ?a ?n] => destruct (Z.testbit a n)
           end;
    destruct (n <? 32); reflexivity.
Qed.

(** X17: after [tcc_register_callback] and [tcc_enable_callback] of a
    callback type below [TCC_CALLBACK_N] whose flag is a 32-bit value, the
    handler invokes that type iff its flag meets INTFLAG. *)
Theorem tcc_registered_enabled_callback_is_invoked
  (callback : nat -> tcc_callback_t) (s : tcc_machine) (i : nat) :
  (i < TCC_CALLBACK_N _tcc_intflag)%nat ->
  0 <= tcc_intflag_of _tcc_intflag i < 4294967296 ->
  let s' := tcc_enable_callback _tcc_intflag i
              (snd (tcc_register_callback _tcc_intflag i s)) in
  In i (snd (_tcc_interrupt_handler _tcc_intflag callback s'))
  <-> flag_set (TCC_INTFLAG s) (tcc_intflag_of _tcc_intflag i) = true.
Proof.
  intros Hi Hflag s'.
  set (f := tcc_intflag_of _tcc_intflag i) in *.
  assert (Hmask :
    Z.land (Z.land (Z.land (TCC_INTFLAG s')
                           (register_callback_mask (tcc s')))
                   (enable_callback_mask (tcc s'))) f
    = Z.land (TCC_INTFLAG s) f).
  { cbn [s' tcc_enable_callback tcc_register_callback snd tcc
         set_register_callback_mask set_enable_callback_mask tcc_access_hw
         TCC_INTFLAG register_callback_mask enable_callback_mask].
    fold f. unfold uint32. change 4294967296 with (2 ^ 32). bitwise.
    assert (Hhigh : Z.testbit f n = true -> (n <? 32) = true).
    { intros Hbit. apply Z.ltb_lt.
      destruct (Z.ltb_spec n 32) as [|Hge]; [assumption|].
      rewrite <- (Z.mod_small f (2 ^ 32)) in Hbit
        by (change (2 ^ 32) with 4294967296; lia).
      rewrite Z.mod_pow2_bits_high in Hbit by lia. discriminate Hbit. }
    destruct (Z.testbit f n).
    - rewrite (Hhigh eq_refl).
      now rewrite !orb_true_r, !andb_true_r.
    - now rewrite !andb_false_r. }
  split.
  - intros Hin. apply tcc_handler_invoked_flag in Hin. fold f in Hin.
    unfold flag_set in *. now rewrite Hmask in Hin.
  - intros Hpending.
    rewrite tcc_handler_invoked_list. apply filter_In. split.
    + apply in_seq. lia.
    + fold f. unfold flag_set in *. now rewrite Hmask.
Qed.

End TccProperties.

Section TccMasks.

Variable _tcc_intflag : list Z.

(** X18: [tcc_register_callback] and [tcc_unregister_callback] always
    return [STATUS_OK]; registering twice, or unregistering twice, is the
    same as once; and registering a type whose flag was not in
    [register_callback_mask] and unregistering it again restores the
    mask. *)
Theorem tcc_register_unregister_masks (s : tcc_machine) (i : nat) :
  0 <= register_callback_mask (tcc s) < 4294967296 ->
  let registered := snd (tcc_register_callback _tcc_intflag i s) in
  let unregistered := snd (tcc_unregister_callback _tcc_intflag i s) in
  tcc_register_callback _tcc_intflag i registered = (STATUS_OK, registered) /\
  tcc_unregister_callback _tcc_intflag i unregistered
  = (STATUS_OK, unregistered) /\
  (Z.land (register_callback_mask (tcc s)) (tcc_intflag_of _tcc_intflag i) = 0 ->
   tcc_unregister_callback _tcc_intflag i registered = (STATUS_OK, s)).
Proof.
  intros Hr registered unregistered.
  unfold registered, unregistered, tcc_register_callback,
    tcc_unregister_callback, set_register_callback_mask, uint32.
  change 4294967296 with (2 ^ 32) in *.
  cbn [snd tcc register_callback_mask enable_callback_mask TCC_INTFLAG
       tcc_accesses].
  split; [|split].
  - do 3 f_equal. apply mask_set_idempotent. lia.
  - do 3 f_equal. apply mask_clear_idempotent. lia.
  - intros Hdisjoint. destruct s as [[r e] flags log].
    cbn [tcc register_callback_mask enable_callback_mask TCC_INTFLAG
         tcc_accesses] in *.
    do 3 f_equal. now apply mask_set_then_clear.
Qed.

(** X19: [tcc_enable_callback] followed by [tcc_disable_callback] of a
    type whose flag was not enabled restores [enable_callback_mask] and
    leaves the other mask alone; on the hardware the flag is written to
    INTENSET and then to INTENCLR, and the interrupt vector of the
    instance, enabled by the first call, is left disabled by the second,
    whatever other callback types are still enabled. *)
Theorem tcc_enable_then_disable (s : tcc_machine) (i : nat) :
  0 <= enable_callback_mask (tcc s) < 4294967296 ->
  Z.land (enable_callback_mask (tcc s)) (tcc_intflag_of _tcc_intflag i) = 0 ->
  let s' := tcc_disable_callback _tcc_intflag i
              (tcc_enable_callback _tcc_intflag i s) in
  tcc s' = tcc s /\
  tcc_accesses s'
  = tcc_accesses s
    ++ [TCC_vector_enable;
        TCC_INTENSET_write (tcc_intflag_of _tcc_intflag i);
        TCC_vector_disable;
        TCC_INTENCLR_write (tcc_intflag_of _tcc_intflag i)].
Proof.
  intros He Hdisjoint s'. split.
  - unfold s', tcc_disable_callback, tcc_enable_callback,
      set_enable_callback_mask, tcc_access_hw, uint32.
    change 4294967296 with (2 ^ 32) in *.
    destruct s as [[r e] flags log].
    cbn [tcc register_callback_mask enable_callback_mask TCC_INTFLAG
         tcc_accesses] in *.
    f_equal. now apply mask_set_then_clear.
  - unfold s', tcc_disable_callback, tcc_enable_callback,
      set_enable_callback_mask, tcc_access_hw.
    cbn [tcc_accesses]. now rewrite <- !app_assoc.
Qed.

End TccMasks.


(** Witness of X17: the trigger callback (index 1) registered and enabled
    while the trigger flag is pending. *)
Lemma tcc_registered_enabled_callback_is_invoked_witness :
  In 1%nat
    (snd (_tcc_interrupt_handler sample_tcc_intflag idle_tcc_callbacks
            (tcc_enable_callback sample_tcc_intflag 1
               (snd (tcc_register_callback sample_tcc_intflag 1 sample_tcc)))))
  <-> flag_set (TCC_INTFLAG sample_tcc) (tcc_intflag_of sample_tcc_intflag 1)
      = true.
Proof.
  apply (tcc_registered_enabled_callback_is_invoked sample_tcc_intflag
           idle_tcc_callbacks sample_tcc 1).
  - cbn. lia.
  - cbn. lia.
Defined.

(** Witness of X18: the trigger callback registered and unregistered. *)
Lemma tcc_register_unregister_masks_witness :
  tcc_unregister_callback sample_tcc_intflag 1
    (snd (tcc_register_callback sample_tcc_intflag 1 sample_tcc))
  = (STATUS_OK, sample_tcc).
Proof.
  apply (tcc_register_unregister_masks sample_tcc_intflag sample_tcc 1).
  - cbn. lia.
  - reflexivity.
Defined.

(** Witness of X19: the trigger callback enabled and disabled. *)
Lemma tcc_enable_then_disable_witness :
  tcc (tcc_disable_callback sample_tcc_intflag 1
         (tcc_enable_callback sample_tcc_intflag 1 sample_tcc))
  = tcc sample_tcc.
Proof.
  apply (tcc_enable_then_disable sample_tcc_intflag sample_tcc 1).
  - cbn. lia.
  - reflexivity.
Defined.

(** * Properties of the bootloader main loop *)

Section BootloaderProperties.

Variable uart : Type.
Variable UART_INIT : uart -> uart.
Variable available : uart -> Z * uart.
Variable getChar : uart -> Z * uart.
Variable boot_task : uart -> uart.
Variable ACK : Z.

Lemma main_iteration_counter (cnt : Z) (u : uart) :
  0 <= cnt <= BOOT_DELAY ->
  fst (main_iteration uart available getChar boot_task ACK (cnt, u))
  = (cnt - 1) mod (BOOT_DELAY + 1).
Proof.
  intros Hcnt. unfold main_iteration.
  destruct (available u) as [a u1].
  assert (Hcounter : (if 0 =? cnt then BOOT_DELAY else uint32 (cnt - 1))
                     = (cnt - 1) mod (BOOT_DELAY + 1)).
  { unfold BOOT_DELAY, uint32 in *. destruct (Z.eqb_spec 0 cnt) as [<-|Hne].
    - reflexivity.
    - rewrite !Z.mod_small by lia. reflexivity. }
  destruct (negb (a =? 0)); [destruct (getChar u1) as [c u2]|];
    cbn [fst]; exact Hcounter.
Qed.

Lemma main_loop_counter (turns : nat) :
  forall (cnt : Z) (u : uart),
    0 <= cnt <= BOOT_DELAY ->
    fst (main_loop uart available getChar boot_task ACK turns (cnt, u))
    = (cnt - Z.of_nat turns) mod (BOOT_DELAY + 1).
Proof.
  induction turns as [|turns IH]; intros cnt u Hcnt.
  - cbn [main_loop fst Z.of_nat]. rewrite Z.sub_0_r.
    symmetry. apply Z.mod_small. lia.
  - cbn [main_loop].
    pose proof (main_iteration_counter cnt u Hcnt) as Hstep.
    destruct (main_iteration uart available getChar boot_task ACK (cnt, u))
      as [cnt' u'].
    cbn [fst] in Hstep. subst cnt'.
    rewrite IH.
    + rewrite Zminus_mod_idemp_l. f_equal. lia.
    + pose proof (Z.mod_pos_bound (cnt - 1) (BOOT_DELAY + 1)).
      unfold BOOT_DELAY in *. lia.
Qed.

(** X20: whatever the serial line does, the counter of [main] stays
    within [0 .. BOOT_DELAY] and has period [BOOT_DELAY + 1]: after [n]
    turns of the loop it is [(BOOT_DELAY - n) mod (BOOT_DELAY + 1)].  The
    wrap-around of the decrement at 0 is never seen, the counter being
    reloaded in the same turn. *)
Theorem main_counter_period (turns : nat) (u : uart) :
  fst (main uart UART_INIT available getChar boot_task ACK turns u)
  = (BOOT_DELAY - Z.of_nat turns) mod (BOOT_DELAY + 1) /\
  0 <= fst (main uart UART_INIT available getChar boot_task ACK turns u)
    <= BOOT_DELAY.
Proof.
  unfold main. rewrite main_loop_counter by (unfold BOOT_DELAY; lia).
  split; [reflexivity|].
  pose proof (Z.mod_pos_bound (BOOT_DELAY - Z.of_nat turns) (BOOT_DELAY + 1)).
  unfold BOOT_DELAY in *. lia.
Qed.

End BootloaderProperties.

(** * What the I2C handler leaves alone *)

Section HandlerFrame.

Variable hdr : header_constants.
Variable callbacks : callback_table.
Variable p : Z.
Hypothesis callbacks_frame :
  forall k s, unchanged_outside p s (callbacks k s).
Variable s0 : machine.
Variable callback_mask : Z.

Lemma unchanged_outside_refl (s : machine) : unchanged_outside p s s.
Proof. now repeat split. Qed.

Lemma unchanged_outside_trans (s1 s2 s3 : machine) :
  unchanged_outside p s1 s2 -> unchanged_outside p s2 s3 ->
  unchanged_outside p s1 s3.
Proof.
  intros (Hr & He & Hn & Hm) (Hr' & He' & Hn' & Hm').
  repeat split; try congruence.
  intros a Ha. now rewrite Hm', Hm.
Qed.

Lemma invoke_frame (k : i2c_slave_callback) :
  preserves (unchanged_outside p s0) (invoke callbacks k).
Proof.
  intros s Hs. cbn. apply (unchanged_outside_trans s0 s); [exact Hs|].
  apply callbacks_frame.
Qed.

Lemma invoke_if_frame (k : i2c_slave_callback) :
  preserves (unchanged_outside p s0) (invoke_if hdr callbacks callback_mask k).
Proof.
  intros s Hs. unfold invoke_if.
  destruct (flag_set _ _); [now apply invoke_frame | exact Hs].
Qed.

Lemma completion_frame (k : i2c_slave_callback) :
  preserves (unchanged_outside p s0)
    (exec (on_module transfer_done) ;;
     invoke_if hdr callbacks callback_mask k)%step.
Proof.
  apply preserves_seq; [now apply preserves_exec | apply invoke_if_frame].
Qed.

Lemma address_match_frame :
  preserves (unchanged_outside p s0)
    (address_match hdr callbacks callback_mask).
Proof.
  unfold address_match. apply preserves_seq.
  - intros s Hs. unfold repeated_start_completion. cbv zeta.
    destruct (_ && _); [now apply completion_frame|].
    destruct (_ && _); [now apply completion_frame | exact Hs].
  - unfold address_phase.
    apply preserves_seq; [|apply preserves_seq; [|apply preserves_seq]].
    + intros s Hs. unfold last_transfer_error.
      destruct (flag_set _ _); [|exact Hs].
      revert s Hs. apply preserves_seq;
        [now apply preserves_exec | apply invoke_if_frame].
    + assert (Hack : preserves (unchanged_outside p s0) ack_if_buffer).
      { intros s Hs. unfold ack_if_buffer.
        destruct (buffer_length (module s) =? 0); exact Hs. }
      intros s Hs. unfold address_response.
      destruct (nack_on_address (module s)); [exact Hs|].
      destruct (flag_set _ _); revert s Hs;
        (apply preserves_seq;
         [ now apply preserves_exec
         | apply preserves_seq; [apply invoke_if_frame | exact Hack] ]).
    + now apply preserves_exec.
    + now apply preserves_exec.
Qed.

Lemma stop_condition_frame :
  preserves (unchanged_outside p s0)
    (stop_condition hdr callbacks callback_mask).
Proof.
  unfold stop_condition. apply preserves_seq.
  - unfold stop_disable_interrupts.
    apply preserves_seq; [now apply preserves_exec|].
    apply preserves_seq; [now apply preserves_exec|].
    intros s Hs. destruct (negb _); exact Hs.
  - intros s Hs. unfold stop_completion. destruct (negb _); [|exact Hs].
    rewrite seq_fst. cbn [exec fst]. unfold stop_callback.
    destruct (_ && _); [now apply invoke_frame|].
    destruct (_ && _); [now apply invoke_frame | exact Hs].
Qed.

Lemma early_termination_frame :
  preserves (unchanged_outside p s0)
    (early_termination hdr callbacks callback_mask).
Proof.
  unfold early_termination. apply preserves_seq; [now apply preserves_exec|].
  intros s Hs. destruct (direction_eqb _ _); revert s Hs.
  - repeat (apply preserves_seq; [now apply preserves_exec|]).
    apply invoke_if_frame.
  - repeat (apply preserves_seq; [now apply preserves_exec|]).
    now apply preserves_exec.
Qed.

End HandlerFrame.

Section HandlerFrameTheorem.

Variable hdr : header_constants.

(** X21: by itself the handler never changes [registered_callback],
    [enabled_callback] or [nack_on_address], and it writes memory at most
    at the address the buffer cursor had on entry: with callbacks that
    respect this, so does a whole interrupt, whatever flags are
    pending. *)
Theorem handler_frame (callbacks : callback_table) (s : machine) :
  (forall k s1, unchanged_outside (buffer (module s)) s1 (callbacks k s1)) ->
  let s' := fst (_i2c_slave_interrupt_handler hdr callbacks s) in
  registered_callback (module s') = registered_callback (module s) /\
  enabled_callback (module s') = enabled_callback (module s) /\
  nack_on_address (module s') = nack_on_address (module s) /\
  forall a, a <> buffer (module s) -> ram s' a = ram s a.
Proof.
  intros Hcb s'. change (unchanged_outside (buffer (module s)) s s').
  unfold s', _i2c_slave_interrupt_handler. cbv zeta.
  set (mask := uint8 _).
  pose proof (unchanged_outside_refl (buffer (module s)) s) as Hrefl.
  destruct (flag_set _ _);
    [exact (address_match_frame hdr callbacks _ Hcb s mask s Hrefl)|].
  destruct (flag_set _ _);
    [exact (stop_condition_frame hdr callbacks _ Hcb s mask s Hrefl)|].
  destruct (flag_set _ _); [|exact Hrefl].
  unfold data_ready. cbv zeta.
  destruct (_ || _);
    [exact (early_termination_frame hdr callbacks _ Hcb s mask s Hrefl)|].
  destruct (_ && _); [|exact Hrefl].
  destruct (direction_eqb _ _); [|exact Hrefl].
  repeat split. intros a Ha. cbn.
  destruct (Z.eqb_spec a (buffer (module s))); [contradiction|reflexivity].
Qed.

End HandlerFrameTheorem.

(** Witness of X21: a received byte leaves the neighbouring byte alone. *)
Lemma handler_frame_witness :
  ram (fst (_i2c_slave_interrupt_handler samr34 idle_callbacks
              (with_hw (drdy_regs 7)
                 (sample_session 2 2 I2C_TRANSFER_WRITE STATUS_BUSY))))
    101
  = ram (with_hw (drdy_regs 7)
           (sample_session 2 2 I2C_TRANSFER_WRITE STATUS_BUSY)) 101.
Proof.
  apply (handler_frame samr34 idle_callbacks
           (with_hw (drdy_regs 7)
              (sample_session 2 2 I2C_TRANSFER_WRITE STATUS_BUSY))).
  - intros k s1. now repeat split.
  - cbn. lia.
Defined.

(** * Repeated start after a transfer to the master *)

Section RepeatedStartRead.

Variable hdr : header_constants.

Lemma address_match_read (callbacks : callback_table) (s : machine) :
  address_match_event hdr (i2c_hw s) ->
  transfer_direction (module s) = I2C_TRANSFER_READ ->
  buffer_length (module s) <> buffer_remaining (module s) ->
  let mask := uint8 (Z.land (enabled_callback (module s))
                            (registered_callback (module s))) in
  _i2c_slave_interrupt_handler hdr callbacks s
  = (exec (on_module transfer_done) ;;
     invoke_if hdr callbacks mask I2C_SLAVE_CALLBACK_WRITE_COMPLETE ;;
     address_phase hdr callbacks mask)%step s.
Proof.
  intros Hev Hdir Hne mask.
  rewrite (handler_address_match hdr callbacks s Hev). fold mask.
  unfold address_match. rewrite <- seq_assoc. unfold seq at 1 3.
  unfold repeated_start_completion at 1. cbv zeta.
  replace (buffer_length (module s) =? buffer_remaining (module s))
    with false by (symmetry; now apply Z.eqb_neq).
  rewrite Hdir. reflexivity.
Qed.

(** X22: on an address match with [buffer_length <> buffer_remaining] in
    direction Read (a repeated start after bytes were sent), the handler
    first resets [status] to [STATUS_OK] and both counters to 0 and
    invokes WRITE_COMPLETE (when enabled and registered), before any
    hardware access; the new address phase runs on the machine the
    callback returns and invokes no WRITE_COMPLETE of its own. *)
Theorem repeated_start_read_completes_first (callbacks : callback_table)
  (s : machine) :
  address_match_event hdr (i2c_hw s) ->
  masks_in_range (module s) ->
  buffer_length (module s) <> buffer_remaining (module s) ->
  transfer_direction (module s) = I2C_TRANSFER_READ ->
  let mask := uint8 (Z.land (enabled_callback (module s))
                            (registered_callback (module s))) in
  exists s1,
    status (module s1) = STATUS_OK /\
    buffer_length (module s1) = 0 /\
    buffer_remaining (module s1) = 0 /\
    i2c_hw s1 = i2c_hw s /\ ram s1 = ram s /\ accesses s1 = accesses s /\
    let first :=
      if callback_on hdr (module s) I2C_SLAVE_CALLBACK_WRITE_COMPLETE
      then (callbacks I2C_SLAVE_CALLBACK_WRITE_COMPLETE s1,
            [I2C_SLAVE_CALLBACK_WRITE_COMPLETE])
      else (s1, []) in
    let rest := address_phase hdr callbacks mask (fst first) in
    _i2c_slave_interrupt_handler hdr callbacks s
    = (fst rest, snd first ++ snd rest) /\
    count_occ callback_eq_dec
      (snd (_i2c_slave_interrupt_handler hdr callbacks s))
      I2C_SLAVE_CALLBACK_WRITE_COMPLETE
    = if callback_on hdr (module s) I2C_SLAVE_CALLBACK_WRITE_COMPLETE
      then 1%nat else 0%nat.
Proof.
  intros Hev Hmask Hne Hdir mask.
  exists (on_module transfer_done s).
  do 6 (split; [reflexivity|]).
  intros first rest.
  assert (Hrest : ~ In I2C_SLAVE_CALLBACK_WRITE_COMPLETE (snd rest)).
  { intros Hin. apply address_phase_callbacks in Hin.
    destruct Hin as [H | [H | H]]; discriminate H. }
  assert (Hrun : _i2c_slave_interrupt_handler hdr callbacks s
                 = (fst rest, snd first ++ snd rest)).
  { rewrite (address_match_read callbacks s Hev Hdir Hne). fold mask.
    rewrite seq_exec.
    assert (Hfirst : invoke_if hdr callbacks mask
                       I2C_SLAVE_CALLBACK_WRITE_COMPLETE
                       (on_module transfer_done s) = first).
    { unfold invoke_if, first, mask.
      rewrite (callback_mask_on hdr (module s)) by assumption.
      now destruct (callback_on _ _ _). }
    unfold seq. rewrite Hfirst. unfold rest.
    destruct first as [s2 l2]. cbn [fst snd].
    now destruct (address_phase hdr callbacks mask s2). }
  split; [assumption|].
  rewrite Hrun. cbn [snd]. rewrite count_occ_app.
  rewrite (proj1 (count_occ_not_In callback_eq_dec _ _) Hrest).
  unfold first. destruct (callback_on _ _ _); reflexivity.
Qed.

End RepeatedStartRead.

(** Witness of X22: a repeated start with one byte of three sent. *)
Lemma repeated_start_read_completes_first_witness :
  count_occ callback_eq_dec
    (snd (_i2c_slave_interrupt_handler samr34 idle_callbacks
            (with_hw (amatch_regs 0)
               (sample_session 3 2 I2C_TRANSFER_READ STATUS_BUSY))))
    I2C_SLAVE_CALLBACK_WRITE_COMPLETE
  = 1%nat.
Proof.
  destruct (repeated_start_read_completes_first samr34 idle_callbacks
              (with_hw (amatch_regs 0)
                 (sample_session 3 2 I2C_TRANSFER_READ STATUS_BUSY)))
    as (s1 & _ & _ & _ & _ & _ & _ & _ & Hcount).
  - reflexivity.
  - split; cbn; lia.
  - cbn. lia.
  - reflexivity.
  - exact Hcount.
Defined.
